(** * wxinflux: a shallow embedding of the ingestion pipeline

    The Go sources embedded here are [weather_calc.go] (the metric
    calculator), [wxinflux.go] (connection manager, packet reader and
    report writer) and [config/config.go] (the settings object).

    Conventions.
    - [float32] and [float64] values are IEEE-754 binary floating-point
      numbers ([spec_float]); every arithmetic operation rounds to nearest,
      ties to even, once per operation (no fused multiply-add, which is
      what the Go compiler emits for amd64).
    - Unsigned integer fields are [Z]; the code performs no integer
      arithmetic on them, only conversions to [float32].
    - [math.Log] and [math.Pow] belong to the Go runtime library and are
      taken as an interface ([GoMath]).
    - The serial port, the JSON stream arriving on it, the InfluxDB client
      and the wall clock are the environment ([World]).  Side effects are
      recorded as a trace of [Event]s. *)

From Stdlib Require Import ZArith List Bool String Lia Relations.
From Stdlib Require Import Floats.SpecFloat.
From Stdlib Require Import Decimal Number.
From Stdlib Require Import DecimalString.
Import ListNotations.
Local Open Scope Z_scope.

(* ================================================================== *)
(** * Part I: definitions *)
(* ================================================================== *)

(** ** Binary floating point *)

(** Decimal constants of the Go source are untyped and exact; converting
    one to a float type rounds the exact rational once.  [SFdiv] on the
    integers [m] and [10^k] performs exactly that single rounding. *)
Section Formats.
Variables prec emax : Z.

Definition round_Z (n : Z) : spec_float := binary_normalize prec emax n 0 false.

Definition round_ratio (s : bool) (num den : positive) : spec_float :=
  SFdiv prec emax (S754_finite s num 0) (S754_finite false den 0).

(** The value [m * 10^e10], rounded. *)
Definition round_dec (m e10 : Z) : spec_float :=
  match e10 with
  | Zneg _ =>
      match m with
      | Z0 => S754_zero false
      | Zpos p => round_ratio false p (Z.to_pos (10 ^ (- e10)))
      | Zneg p => round_ratio true p (Z.to_pos (10 ^ (- e10)))
      end
  | _ => round_Z (m * 10 ^ e10)
  end.

Definition round_number (n : Number.number) : option spec_float :=
  match n with
  | Number.Decimal (Decimal.Decimal i f) =>
      Some (round_dec (Z.of_int (Decimal.app_int i f))
                      (- Z.of_nat (Decimal.nb_digits f)))
  | Number.Decimal (Decimal.DecimalExp i f e) =>
      Some (round_dec (Z.of_int (Decimal.app_int i f))
                      (Z.of_int e - Z.of_nat (Decimal.nb_digits f)))
  | _ => None
  end.

(** Conversion between formats: the value of [x], rounded to the target. *)
Definition round_float (x : spec_float) : spec_float :=
  match x with
  | S754_finite s m e => binary_round prec emax s m e
  | _ => x
  end.

End Formats.

Definition no_print (x : spec_float) : option Number.number := None.

Module F32.
Definition prec : Z := 24.
Definition emax : Z := 128.
Definition add := SFadd prec emax.
Definition sub := SFsub prec emax.
Definition mul := SFmul prec emax.
Definition div := SFdiv prec emax.
Definition ltb := SFltb.
Definition leb := SFleb.
Definition eqb := SFeqb.
Definition of_Z := round_Z prec emax.
Definition of_number := round_number prec emax.
End F32.

Module F64.
Definition prec : Z := 53.
Definition emax : Z := 1024.
Definition of_number := round_number prec emax.
End F64.

Definition float32 := spec_float.
Definition float64 := spec_float.

Declare Scope f32_scope.
Delimit Scope f32_scope with f32.
Declare Scope f64_scope.
Delimit Scope f64_scope with f64.
Number Notation spec_float F32.of_number no_print : f32_scope.
Number Notation spec_float F64.of_number no_print : f64_scope.
Infix "+" := F32.add : f32_scope.
Infix "-" := F32.sub : f32_scope.
Infix "*" := F32.mul : f32_scope.
Infix "/" := F32.div : f32_scope.
Notation "x <? y" := (F32.ltb x y) : f32_scope.
Notation "x <=? y" := (F32.leb x y) : f32_scope.
Notation "x >=? y" := (F32.leb y x) : f32_scope.
Notation "x >? y" := (F32.ltb y x) : f32_scope.
Notation "x =? y" := (F32.eqb x y) : f32_scope.

(** Go conversions [float64(x)] and [float32(x)]. *)
Definition float64_of_float32 (x : float32) : float64 := round_float F64.prec F64.emax x.
Definition float32_of_float64 (x : float64) : float32 := round_float F32.prec F32.emax x.

(** Go conversion [float32(n)] of an unsigned integer. *)
Definition float32_of_uint (n : Z) : float32 := F32.of_Z n.

(** The part of Go's [math] package the program calls.  [math.Pow]
    documents the special case [Pow(1, y) = 1] for every [y]. *)
Class GoMath := {
  math_Log : float64 -> float64;
  math_Pow : float64 -> float64 -> float64;
  math_Pow_1_y : forall y, math_Pow (1)%f64 y = (1)%f64
}.

(* ------------------------------------------------------------------ *)
(** ** weather_calc.go *)

Section WeatherCalc.
Context {M : GoMath}.
Local Open Scope f32_scope.

Definition fToC (t : float32) : float32 :=
  ((t - 32.0) * 5.0 / 9.0).

Definition cToF (t : float32) : float32 :=
  (t * 9.0 / 5.0) + 32.0.

Definition dewpointCelcius (t rh : float32) : float32 :=
  if t <? 0 then 0.0
  else if t =? -237.7 then 0.0
  else
    let rh := rh / 100.0 in
    let γ := 17.27 * t / (237.7 + t)
             + float32_of_float64 (math_Log (float64_of_float32 rh)) in
    if γ =? 17.27 then 0.0
    else
      let TdpC := 237.7 * γ / (17.27 - γ) in
      TdpC.

Definition dewpointFahrenheit (t rh : float32) : float32 :=
  cToF (dewpointCelcius (fToC t) rh).

Definition windchillFahrenheit (t ws : float32) : float32 :=
  if (t >=? 50) || (ws <=? 0) then t
  else
    let WcF := 35.74 + 0.6215 * t
               + (-35.75 + 0.4275 * t)
                 * float32_of_float64 (math_Pow (float64_of_float32 ws) (0.16)%f64) in
    WcF.

Definition heatIndexFahrenheit (t rh : float32) : float32 :=
  if (t <? 80.0) || (rh <=? 40.0) then t
  else
    let heatIdx := -42.379 + 2.04901523 * t + 10.14333127 * rh
                   - 0.22475541 * t * rh - 6.83783e-3 * t * t
                   - 5.481717e-2 * rh * rh + 1.22874e-3 * t * t * rh
                   + 8.5282e-4 * t * rh * rh - 1.99e-6 * t * t * rh * rh in
    heatIdx.

End WeatherCalc.

(** The value the source names [γ] in [dewpointCelcius]. *)
Definition dewpoint_gamma {M : GoMath} (t rh : float32) : float32 :=
  (17.27 * t / (237.7 + t)
   + float32_of_float64 (math_Log (float64_of_float32 (rh / 100.0))))%f32.

(** The wind-chill formula as the specification writes it:
    [35.74 + 0.6215 t + (-35.75 + 0.4275 t) ws^0.16], the power taken by
    [math.Pow] and brought back to single precision. *)
Definition windchill_formula {M : GoMath} (t ws : float32) : float32 :=
  let ws_pow := float32_of_float64 (math_Pow (float64_of_float32 ws) (0.16)%f64) in
  (35.74 + 0.6215 * t + (-35.75 + 0.4275 * t) * ws_pow)%f32.

(** The regression of the NOAA heat-index page, with the coefficients as
    that page prints them, summed term by term from the left. *)
Definition noaa_heat_index (T RH : float32) : float32 :=
  (-42.379 + 2.04901523 * T + 10.14333127 * RH - 0.22475541 * T * RH
   - 0.00683783 * T * T - 0.05481717 * RH * RH + 0.00122874 * T * T * RH
   + 0.00085282 * T * RH * RH - 0.00000199 * T * T * RH * RH)%f32.

(** Rainfall as the specification writes it: [tipCount * 0.1]. *)
Definition rainfall (tipCount : Z) : float32 :=
  (float32_of_uint tipCount * 0.1)%f32.

Definition NaN : spec_float := S754_nan.

(** A table of three results of [math.Log] and [math.Pow]: the exact
    [Log(1) = 0] and [Pow(1, y) = 1], and the logarithm of 31642146, which
    is 17.270000524100976 to the last digit of a [float64]; every other
    result is left as [NaN].  It serves to run the program on concrete
    inputs. *)
Definition knownMath : GoMath := {|
  math_Log := fun x =>
    if SFeqb x (1)%f64 then (0)%f64
    else if SFeqb x (31642146)%f64 then (17.270000524100976)%f64
    else NaN;
  math_Pow := fun x y => if SFeqb x (1)%f64 then (1)%f64 else NaN;
  math_Pow_1_y := fun y => eq_refl
|}.

(* ------------------------------------------------------------------ *)
(** ** config/config.go *)

Module config.
Record InfluxDBConfig := {
  InfluxURL : string;
  InfluxDBName : string;
  InfluxUser : string;
  InfluxPass : string
}.
Record Si2000Config := {
  Device : string;
  Baud : Z  (* uint16 *)
}.
Record Config := {
  InfluxDB : InfluxDBConfig;
  Si2000 : Si2000Config
}.
End config.

(* ------------------------------------------------------------------ *)
(** ** wxinflux.go: data *)

Inductive ConnStatus := NotConnected | Connecting | Connected.

Module WxPacket.
Record t := {
  Ready : bool;
  Status : string;
  TransmitterID : Z;        (* uint8 *)
  RSSI : Z;                 (* uint16 *)
  RxPackets : Z;            (* uint16 *)
  LostPackets : Z;          (* uint16 *)
  BadCRCPackets : Z;        (* uint16 *)
  WindSpeed : Z;            (* uint8 *)
  WindDir : Z;              (* uint16 *)
  Temperature : float32;
  Humidity : float32;
  UVIndex : float32;
  SolarRadiation : float32;
  RainSpoons : Z;           (* uint32 *)
  Raw : string;
  Version : string
}.
(** [var packet WxPacket]: every field holds the zero value of its type. *)
Definition zero : t := {|
  Ready := false; Status := EmptyString; TransmitterID := 0; RSSI := 0;
  RxPackets := 0; LostPackets := 0; BadCRCPackets := 0; WindSpeed := 0;
  WindDir := 0; Temperature := (0)%f32; Humidity := (0)%f32;
  UVIndex := (0)%f32; SolarRadiation := (0)%f32; RainSpoons := 0;
  Raw := EmptyString; Version := EmptyString
|}.
End WxPacket.

Module WxReport.
Record t := {
  TransmitterID : Z;        (* uint8 *)
  WindSpeed : Z;            (* uint8 *)
  WindDir : Z;              (* uint16 *)
  Temperature : float32;
  Humidity : float32;
  Dewpoint : float32;
  HeatIndex : float32;
  WindChill : float32;
  UVIndex : float32;
  SolarRadiation : float32;
  Rainfall : float32
}.
End WxReport.

(** One JSON object of the serial stream, by the keys of the struct tags
    of [WxPacket]: a key that the object does not carry is [None]. *)
Module Wire.
Record t := {
  ready : option bool;
  status : option string;
  transmitter_id : option Z;
  RSSI : option Z;
  recv_packets : option Z;
  lost_packets : option Z;
  bad_CRC : option Z;
  wind_speed_mph : option Z;
  wind_direction_degrees : option Z;
  temperature_F : option float32;
  humidity_pct : option float32;
  UV_index : option float32;
  solar_Wm2 : option float32;
  rain_spoons : option Z;
  raw : option string;
  version : option string
}.
Definition empty : t := {|
  ready := None; status := None; transmitter_id := None; RSSI := None;
  recv_packets := None; lost_packets := None; bad_CRC := None;
  wind_speed_mph := None; wind_direction_degrees := None;
  temperature_F := None; humidity_pct := None; UV_index := None;
  solar_Wm2 := None; rain_spoons := None; raw := None; version := None
|}.
End Wire.

(** [encoding/json] stores the value of each key that is present into the
    matching struct field and leaves every other field as it was. *)
Definition store {A : Type} (key : option A) (field : A) : A :=
  match key with
  | Some v => v
  | None => field
  end.

Definition Unmarshal (w : Wire.t) (p : WxPacket.t) : WxPacket.t := {|
  WxPacket.Ready := store (Wire.ready w) (WxPacket.Ready p);
  WxPacket.Status := store (Wire.status w) (WxPacket.Status p);
  WxPacket.TransmitterID := store (Wire.transmitter_id w) (WxPacket.TransmitterID p);
  WxPacket.RSSI := store (Wire.RSSI w) (WxPacket.RSSI p);
  WxPacket.RxPackets := store (Wire.recv_packets w) (WxPacket.RxPackets p);
  WxPacket.LostPackets := store (Wire.lost_packets w) (WxPacket.LostPackets p);
  WxPacket.BadCRCPackets := store (Wire.bad_CRC w) (WxPacket.BadCRCPackets p);
  WxPacket.WindSpeed := store (Wire.wind_speed_mph w) (WxPacket.WindSpeed p);
  WxPacket.WindDir := store (Wire.wind_direction_degrees w) (WxPacket.WindDir p);
  WxPacket.Temperature := store (Wire.temperature_F w) (WxPacket.Temperature p);
  WxPacket.Humidity := store (Wire.humidity_pct w) (WxPacket.Humidity p);
  WxPacket.UVIndex := store (Wire.UV_index w) (WxPacket.UVIndex p);
  WxPacket.SolarRadiation := store (Wire.solar_Wm2 w) (WxPacket.SolarRadiation p);
  WxPacket.RainSpoons := store (Wire.rain_spoons w) (WxPacket.RainSpoons p);
  WxPacket.Raw := store (Wire.raw w) (WxPacket.Raw p);
  WxPacket.Version := store (Wire.version w) (WxPacket.Version p)
|}.

(** Go [error] values the program can meet. *)
Inductive error :=
| io_EOF
| io_ErrUnexpectedEOF
| json_SyntaxError
| json_UnmarshalTypeError
| errorString (msg : string).

(** What one call [dec.Decode(&packet)] does: the keys it stored into
    [packet] before returning, and the error it returned. *)
Record DecodeResult := {
  stored : Wire.t;
  err : option error
}.

Definition Handle := nat.

(** A [json.Decoder]: the results of the calls still to come on the stream
    of the reader it was created over; [None] is a decoder over a nil
    reader. *)
Definition Decoder := option (list DecodeResult).

(** ** wxinflux.go: generateWxReport *)

Section Report.
Context {M : GoMath}.

Definition generateWxReport (p : WxPacket.t) : WxReport.t :=
  let r := {|
    WxReport.TransmitterID := WxPacket.TransmitterID p;
    WxReport.WindSpeed := WxPacket.WindSpeed p;
    WxReport.WindDir := WxPacket.WindDir p;
    WxReport.Temperature := WxPacket.Temperature p;
    WxReport.Humidity := WxPacket.Humidity p;
    WxReport.Dewpoint := dewpointFahrenheit (WxPacket.Temperature p) (WxPacket.Humidity p);
    WxReport.HeatIndex := heatIndexFahrenheit (WxPacket.Temperature p) (WxPacket.Humidity p);
    WxReport.WindChill :=
      windchillFahrenheit (WxPacket.Temperature p) (float32_of_uint (WxPacket.WindSpeed p));
    WxReport.UVIndex := WxPacket.UVIndex p;
    WxReport.SolarRadiation := WxPacket.SolarRadiation p;
    WxReport.Rainfall := (float32_of_uint (WxPacket.RainSpoons p) * 0.1)%f32
  |} in
  r.

End Report.

(* ------------------------------------------------------------------ *)
(** ** The environment and the effects of the program *)

(** [influx.Point] and [influx.BatchPoints], as far as the program fills
    them. *)
Inductive FieldValue :=
| UintField (n : Z)
| Float32Field (x : float32).

Record Point := {
  pt_name : string;
  pt_tags : list (string * string);
  pt_fields : list (string * FieldValue);
  pt_time : Z
}.

Record BatchPoints := {
  Database : string;
  Precision : string;
  points : list Point
}.

(** The lines the program passes to [log.Println] and [log.Printf]. *)
Inductive LogLine :=
| SkippingReconnect
| ConnectingTo (device : string)
| SleepingAndTryingAgain
| ConnectionSuccessful (device : string)
| ErrorReadingFromDevice (e : error)
| ErrorLoggingReport (e : error)
| ErrorLoggingDataPoint (e : error)
| ReceivedReport (r : WxReport.t).

Inductive Event :=
| EvLog (l : LogLine)
| EvSetStatus (s : ConnStatus)
| EvOpenPort (name : string) (baud : Z) (r : option Handle)
| EvSleep (seconds : Z)
| EvDecode (r : DecodeResult)
| EvSend (r : WxReport.t)
| EvReceive (r : WxReport.t)
| EvNewBatchPoints (conf : BatchPoints) (e : option error)
| EvWrite (bp : BatchPoints) (e : option error).

(** Everything outside the process.  Calls are numbered from 0.
    - [serial_OpenPort n name baud]: the port the [n]-th call of
      [serial.OpenPort] returns, [None] when it returns an error (and a
      nil port);
    - [json_stream h]: the results of the successive [Decode] calls on
      port [h]; once they are used up the port is at end-of-stream;
    - [influx_NewBatchPoints k], [influx_Write k bp], [time_Now k]: what
      the calls made for the [k]-th report return. *)
Record World := {
  serial_OpenPort : nat -> string -> Z -> option Handle;
  json_stream : Handle -> list DecodeResult;
  influx_NewBatchPoints : nat -> option error;
  influx_Write : nat -> BatchPoints -> option error;
  time_Now : nat -> Z
}.

(** [sync.RWMutex]: any number of readers or one writer.  An operation
    returns [None] when the caller cannot proceed: [RLock] and [Lock] block,
    [RUnlock] and [Unlock] of a mutex that is not locked are fatal. *)
Record RWMutex := {
  readerCount : nat;
  writerHeld : bool
}.

Definition rw_RLock (m : RWMutex) : option RWMutex :=
  if writerHeld m then None
  else Some {| readerCount := S (readerCount m); writerHeld := false |}.

Definition rw_RUnlock (m : RWMutex) : option RWMutex :=
  match readerCount m with
  | O => None
  | S n => Some {| readerCount := n; writerHeld := writerHeld m |}
  end.

Definition rw_Lock (m : RWMutex) : option RWMutex :=
  match readerCount m, writerHeld m with
  | O, false => Some {| readerCount := O; writerHeld := true |}
  | _, _ => None
  end.

Definition rw_Unlock (m : RWMutex) : option RWMutex :=
  if writerHeld m then Some {| readerCount := readerCount m; writerHeld := false |}
  else None.

Definition unlocked : RWMutex := {| readerCount := 0; writerHeld := false |}.

Record DavisSi1000 := {
  config : config.Config;
  conn : option Handle;     (* io.ReadWriteCloser, None is nil *)
  status : ConnStatus;
  statusMu : RWMutex
}.

(** [NewDavisSi1000()] followed by [d.config = cfg]. *)
Definition NewDavisSi1000 (cfg : config.Config) : DavisSi1000 :=
  {| config := cfg; conn := None; status := NotConnected; statusMu := unlocked |}.

(** The goroutine that runs [main]: the receiver object, the number of
    [serial.OpenPort] calls made so far, and the trace of its effects,
    oldest first. *)
Record Task := {
  dev : DavisSi1000;
  opens : nat;
  trace : list Event
}.

Definition start (cfg : config.Config) : Task :=
  {| dev := NewDavisSi1000 cfg; opens := 0; trace := [] |}.

(** A small state monad over [Task].  A computation returns, or halts:
    blocked for ever on the mutex, stopped by a fatal runtime error, or
    still running when the fuel of a loop is used up. *)
Inductive Stop := Blocked | Fatal | OutOfFuel.

Inductive Res (A : Type) :=
| Ret (a : A) (t : Task)
| Halt (why : Stop) (t : Task).
Arguments Ret {A} a t.
Arguments Halt {A} why t.

Definition Go (A : Type) := Task -> Res A.

Definition ret {A : Type} (a : A) : Go A := fun t => Ret a t.

Definition bind {A B : Type} (c : Go A) (k : A -> Go B) : Go B :=
  fun t =>
    match c t with
    | Ret a t' => k a t'
    | Halt why t' => Halt why t'
    end.

Definition halt {A : Type} (why : Stop) : Go A := fun t => Halt why t.

Notation "x <- c ;; k" := (bind c (fun x => k))
  (at level 61, c at next level, right associativity).
Notation "c ;; k" := (bind c (fun _ => k))
  (at level 61, right associativity).

Definition emit (e : Event) : Go unit :=
  fun t => Ret tt {| dev := dev t; opens := opens t; trace := trace t ++ [e] |}.

Definition Println (l : LogLine) : Go unit := emit (EvLog l).

Definition Sleep (seconds : Z) : Go unit := emit (EvSleep seconds).

Definition on_statusMu (op : RWMutex -> option RWMutex) (why : Stop) : Go unit :=
  fun t =>
    let d := dev t in
    match op (statusMu d) with
    | Some m =>
        Ret tt {| dev := {| config := config d; conn := conn d;
                            status := status d; statusMu := m |};
                  opens := opens t; trace := trace t |}
    | None => Halt why t
    end.

Definition RLock : Go unit := on_statusMu rw_RLock Blocked.
Definition RUnlock : Go unit := on_statusMu rw_RUnlock Fatal.
Definition Lock : Go unit := on_statusMu rw_Lock Blocked.
Definition Unlock : Go unit := on_statusMu rw_Unlock Fatal.

Definition get_status : Go ConnStatus := fun t => Ret (status (dev t)) t.

Definition get_conn : Go (option Handle) := fun t => Ret (conn (dev t)) t.

Definition get_config : Go config.Config := fun t => Ret (config (dev t)) t.

(** [d.status = s] *)
Definition set_status (s : ConnStatus) : Go unit :=
  fun t =>
    let d := dev t in
    Ret tt {| dev := {| config := config d; conn := conn d;
                        status := s; statusMu := statusMu d |};
              opens := opens t; trace := trace t ++ [EvSetStatus s] |}.

(** [d.conn = c] *)
Definition set_conn (c : option Handle) : Go unit :=
  fun t =>
    let d := dev t in
    Ret tt {| dev := {| config := config d; conn := c;
                        status := status d; statusMu := statusMu d |};
              opens := opens t; trace := trace t |}.

(* ------------------------------------------------------------------ *)
(** ** wxinflux.go: the connection manager *)

Section Program.
Context (W : World) {M : GoMath}.

(** [serial.OpenPort(&serial.Config{Name: name, Baud: baud})] *)
Definition OpenPort (name : string) (baud : Z) : Go (option Handle) :=
  fun t =>
    let r := serial_OpenPort W (opens t) name baud in
    Ret r {| dev := dev t; opens := S (opens t);
             trace := trace t ++ [EvOpenPort name baud r] |}.

(** The [for] loop of [connectToSerialSi1000]; [fuel] bounds the number of
    attempts the model follows, the source has no bound. *)
Fixpoint connectLoop (fuel : nat) : Go unit :=
  match fuel with
  | O => halt OutOfFuel
  | S fuel' =>
      cfg <- get_config ;;
      c <- OpenPort (config.Device (config.Si2000 cfg)) (config.Baud (config.Si2000 cfg)) ;;
      set_conn c ;;
      match c with
      | None =>
          Println SleepingAndTryingAgain ;;
          Sleep 5 ;;
          connectLoop fuel'
      | Some _ =>
          (* We connected. *)
          Lock ;;
          set_status Connected ;;
          Unlock ;;
          Println (ConnectionSuccessful (config.Device (config.Si2000 cfg))) ;;
          ret tt
      end
  end.

Definition connectToSerialSi1000 (fuel : nat) : Go unit :=
  RLock ;;
  s <- get_status ;;
  match s with
  | Connecting =>
      RUnlock ;;
      Println SkippingReconnect ;;
      ret tt
  | NotConnected =>
      RUnlock ;;
      Lock ;;
      set_status Connecting ;;
      Unlock ;;
      cfg <- get_config ;;
      Println (ConnectingTo (config.Device (config.Si2000 cfg))) ;;
      connectLoop fuel
  | Connected => ret tt
  end.

(* ------------------------------------------------------------------ *)
(** ** wxinflux.go: the packet reader *)

(** [json.NewDecoder(d.conn)] *)
Definition NewDecoder : Go Decoder :=
  c <- get_conn ;;
  match c with
  | Some h => ret (Some (json_stream W h))
  | None => ret None
  end.

Definition at_EOF : DecodeResult := {| stored := Wire.empty; err := Some io_EOF |}.

(** What the next call of [Decode] does: the first of the pending
    results, end-of-stream once they are used up. *)
Definition next_result (pending : list DecodeResult) : DecodeResult :=
  match pending with
  | [] => at_EOF
  | r :: _ => r
  end.

(** [dec.Decode(&packet)] on a fresh [packet]: the packet after the call,
    the error, and the decoder after the call.  A decoder over a nil
    reader stops the program. *)
Definition Decode (dec : Decoder) : Go (WxPacket.t * option error * Decoder) :=
  match dec with
  | None => halt Fatal
  | Some pending =>
      let r := next_result pending in
      emit (EvDecode r) ;;
      ret (Unmarshal (stored r) WxPacket.zero, err r, Some (tl pending))
  end.

(** Where the reader stands in [readReports]: at the head of the outer
    loop, at the head of the inner loop, or at the send on [reportChan]. *)
Inductive ReaderPc :=
| AtNewDecoder
| AtDecode (dec : Decoder)
| AtSend (dec : Decoder) (report : WxReport.t).

(** [reportChan <- report], seen from the sender once a receiver took it. *)
Definition send (report : WxReport.t) : Go unit := emit (EvSend report).

(** One move of [readReports] from one of these places to the next. *)
Definition readReports_step (fuel : nat) (pc : ReaderPc) : Go ReaderPc :=
  match pc with
  | AtNewDecoder =>
      dec <- NewDecoder ;;
      ret (AtDecode dec)
  | AtDecode dec =>
      res <- Decode dec ;;
      let '(packet, e, dec') := res in
      match e with
      | Some io_EOF =>
          Println (ErrorReadingFromDevice io_EOF) ;;
          Lock ;;
          set_status NotConnected ;;
          Unlock ;;
          connectToSerialSi1000 fuel ;;
          ret AtNewDecoder
      | _ =>
          let report := generateWxReport packet in
          ret (AtSend dec' report)
      end
  | AtSend dec report =>
      send report ;;
      ret (AtDecode dec)
  end.

(** [readReports] with a receiver that is always ready, followed for
    [steps] moves. *)
Fixpoint readReports (fuel steps : nat) (pc : ReaderPc) : Go ReaderPc :=
  match steps with
  | O => ret pc
  | S steps' =>
      pc' <- readReports_step fuel pc ;;
      readReports fuel steps' pc'
  end.

(* ------------------------------------------------------------------ *)
(** ** wxinflux.go: the report writer *)

(** The goroutine that runs [storeReports]: the number of reports it has
    taken from the channel, the trace of its effects, and the batches the
    store accepted, each with the number of its report. *)
Record Writer := {
  taken : nat;
  wtrace : list Event;
  accepted : list (nat * BatchPoints)
}.

Definition writer_start : Writer := {| taken := 0; wtrace := []; accepted := [] |}.

Definition wemit (es : list Event) (w : Writer) : Writer :=
  {| taken := taken w; wtrace := wtrace w ++ es; accepted := accepted w |}.

(** [string(n)] of an integer below 256: the UTF-8 encoding of the code
    point [n]. *)
Definition string_of_uint8 (n : Z) : string :=
  if n <? 128 then String (Ascii.ascii_of_N (Z.to_N n)) EmptyString
  else String (Ascii.ascii_of_N (Z.to_N (192 + n / 64)))
         (String (Ascii.ascii_of_N (Z.to_N (128 + n mod 64))) EmptyString).

Definition report_tags (report : WxReport.t) : list (string * string) :=
  [("transmitter-id"%string, string_of_uint8 (WxReport.TransmitterID report))].

Definition report_fields (report : WxReport.t) : list (string * FieldValue) :=
  [ ("wind_speed"%string, UintField (WxReport.WindSpeed report));
    ("wind_dir"%string, UintField (WxReport.WindDir report));
    ("temperature"%string, Float32Field (WxReport.Temperature report));
    ("humidity"%string, Float32Field (WxReport.Humidity report));
    ("dewpoint"%string, Float32Field (WxReport.Dewpoint report));
    ("heat_index"%string, Float32Field (WxReport.HeatIndex report));
    ("wind_chill"%string, Float32Field (WxReport.WindChill report));
    ("uv_index"%string, Float32Field (WxReport.UVIndex report));
    ("solar_radiation"%string, Float32Field (WxReport.SolarRadiation report));
    ("rainfall"%string, Float32Field (WxReport.Rainfall report)) ].

Definition NewPoint (name : string) (tags : list (string * string))
    (fields : list (string * FieldValue)) (time : Z) : Point :=
  {| pt_name := name; pt_tags := tags; pt_fields := fields; pt_time := time |}.

Definition AddPoint (bp : BatchPoints) (pt : Point) : BatchPoints :=
  {| Database := Database bp; Precision := Precision bp; points := points bp ++ [pt] |}.

(** The body of [case report := <-reportChan] for the report the writer
    has just taken. *)
Definition storeReport (cfg : config.Config) (report : WxReport.t) (w : Writer) : Writer :=
  let k := taken w in
  let w := {| taken := S k; wtrace := wtrace w; accepted := accepted w |} in
  let bp := {| Database := config.InfluxDBName (config.InfluxDB cfg);
               Precision := "s"; points := [] |} in
  match influx_NewBatchPoints W k with
  | Some e =>
      wemit [EvNewBatchPoints bp (Some e); EvLog (ErrorLoggingReport e)] w
      (* continue *)
  | None =>
      let w := wemit [EvNewBatchPoints bp None] w in
      let tags := report_tags report in
      let fields := report_fields report in
      let pt := NewPoint "wxreport" tags fields (time_Now W k) in
      let bp := AddPoint bp pt in
      match influx_Write W k bp with
      | Some e =>
          wemit [EvWrite bp (Some e); EvLog (ErrorLoggingDataPoint e)] w
          (* continue *)
      | None =>
          let w := {| taken := taken w; wtrace := wtrace w;
                      accepted := accepted w ++ [(k, bp)] |} in
          wemit [EvWrite bp None; EvLog (ReceivedReport report)] w
      end
  end.

(** [report := <-reportChan], seen from the receiver. *)
Definition receive (report : WxReport.t) (w : Writer) : Writer :=
  wemit [EvReceive report] w.

(** [storeReports] fed the reports [reports] one after the other. *)
Fixpoint storeReports (cfg : config.Config) (reports : list WxReport.t) (w : Writer) : Writer :=
  match reports with
  | [] => w
  | report :: rest => storeReports cfg rest (storeReport cfg report (receive report w))
  end.

(* ------------------------------------------------------------------ *)
(** ** wxinflux.go: main, the two goroutines and the channel *)

Inductive WriterPc :=
| AtReceive
| AtStore (report : WxReport.t).

Record System := {
  reader : Task;
  reader_pc : ReaderPc;
  writer : Writer;
  writer_pc : WriterPc
}.

(** [reportChan] is unbuffered: a send completes together with the
    receive that takes its value, and otherwise each goroutine moves on
    its own. *)
Inductive step : System -> System -> Prop :=
| step_open_decoder : forall t w wpc fuel pc' t',
    readReports_step fuel AtNewDecoder t = Ret pc' t' ->
    step {| reader := t; reader_pc := AtNewDecoder; writer := w; writer_pc := wpc |}
         {| reader := t'; reader_pc := pc'; writer := w; writer_pc := wpc |}
| step_decode : forall t dec w wpc fuel pc' t',
    readReports_step fuel (AtDecode dec) t = Ret pc' t' ->
    step {| reader := t; reader_pc := AtDecode dec; writer := w; writer_pc := wpc |}
         {| reader := t'; reader_pc := pc'; writer := w; writer_pc := wpc |}
| step_handoff : forall t dec report w fuel pc' t',
    readReports_step fuel (AtSend dec report) t = Ret pc' t' ->
    step {| reader := t; reader_pc := AtSend dec report; writer := w; writer_pc := AtReceive |}
         {| reader := t'; reader_pc := pc'; writer := receive report w;
            writer_pc := AtStore report |}
| step_store : forall t pc w report,
    step {| reader := t; reader_pc := pc; writer := w; writer_pc := AtStore report |}
         {| reader := t; reader_pc := pc;
            writer := storeReport (config (dev t)) report w; writer_pc := AtReceive |}.

(** [main] after the configuration is read: [d.connectToSerialSi1000()],
    [go d.storeReports(reportChan, ic)], [d.readReports(reportChan)]. *)
Inductive main_started (cfg : config.Config) : System -> Prop :=
| main_connected : forall fuel t,
    connectToSerialSi1000 fuel (start cfg) = Ret tt t ->
    main_started cfg {| reader := t; reader_pc := AtNewDecoder;
                        writer := writer_start; writer_pc := AtReceive |}.

Inductive reachable (cfg : config.Config) : System -> Prop :=
| reach_start : forall s, main_started cfg s -> reachable cfg s
| reach_step : forall s s', reachable cfg s -> step s s' -> reachable cfg s'.

End Program.

(** ** Reading traces *)

(** The reports the writer took from the channel, oldest first. *)
Fixpoint receives (tr : list Event) : list WxReport.t :=
  match tr with
  | [] => []
  | EvReceive r :: tr' => r :: receives tr'
  | _ :: tr' => receives tr'
  end.

(** The reports the reader handed to the channel, oldest first. *)
Fixpoint sends (tr : list Event) : list WxReport.t :=
  match tr with
  | [] => []
  | EvSend r :: tr' => r :: sends tr'
  | _ :: tr' => sends tr'
  end.

(** The packets the reader went on to build a report from: the packet of
    every [Decode] call that did not return [io.EOF]. *)
Fixpoint packets (tr : list Event) : list WxPacket.t :=
  match tr with
  | [] => []
  | EvDecode r :: tr' =>
      match err r with
      | Some io_EOF => packets tr'
      | _ => Unmarshal (stored r) WxPacket.zero :: packets tr'
      end
  | _ :: tr' => packets tr'
  end.

(** The records that decoded without error. *)
Fixpoint records (tr : list Event) : list WxPacket.t :=
  match tr with
  | [] => []
  | EvDecode r :: tr' =>
      match err r with
      | None => Unmarshal (stored r) WxPacket.zero :: records tr'
      | Some _ => records tr'
      end
  | _ :: tr' => records tr'
  end.


(** The number of calls of [influx.NewBatchPoints] and of
    [serial.OpenPort] in a trace. *)
Fixpoint batch_calls (tr : list Event) : nat :=
  match tr with
  | [] => 0
  | EvNewBatchPoints _ _ :: tr' => S (batch_calls tr')
  | _ :: tr' => batch_calls tr'
  end.

Fixpoint open_calls (tr : list Event) : nat :=
  match tr with
  | [] => 0
  | EvOpenPort _ _ _ :: tr' => S (open_calls tr')
  | _ :: tr' => open_calls tr'
  end.



(** ** Traces the connection manager is expected to leave *)

(** [k] failed attempts to open [name] at [baud]. *)
Fixpoint failed_attempts (name : string) (baud : Z) (k : nat) : list Event :=
  match k with
  | O => []
  | S k' =>
      [EvOpenPort name baud None; EvLog SleepingAndTryingAgain; EvSleep 5]
      ++ failed_attempts name baud k'
  end.

(** A connect from [NotConnected] that succeeds with port [h] at its
    [k+1]-st attempt. *)
Definition connect_events (name : string) (baud : Z) (k : nat) (h : Handle) : list Event :=
  [EvSetStatus Connecting; EvLog (ConnectingTo name)]
  ++ failed_attempts name baud k
  ++ [EvOpenPort name baud (Some h); EvSetStatus Connected;
      EvLog (ConnectionSuccessful name)].



Definition device_of (t : Task) : string := config.Device (config.Si2000 (config (dev t))).
Definition baud_of (t : Task) : Z := config.Baud (config.Si2000 (config (dev t))).

(** ** A concrete environment to run the program in *)

Definition sample_config : config.Config := {|
  config.InfluxDB := {| config.InfluxURL := "http://localhost:8086";
                        config.InfluxDBName := "weather";
                        config.InfluxUser := "wx";
                        config.InfluxPass := "secret" |};
  config.Si2000 := {| config.Device := "/dev/ttyUSB0"; config.Baud := 57600 |}
|}.

Definition record (t_F h_pct : float32) (wind tips : Z) : DecodeResult := {|
  stored := {|
    Wire.ready := Some true; Wire.status := None;
    Wire.transmitter_id := Some 1; Wire.RSSI := None;
    Wire.recv_packets := None; Wire.lost_packets := None; Wire.bad_CRC := None;
    Wire.wind_speed_mph := Some wind; Wire.wind_direction_degrees := Some 180;
    Wire.temperature_F := Some t_F; Wire.humidity_pct := Some h_pct;
    Wire.UV_index := None; Wire.solar_Wm2 := None;
    Wire.rain_spoons := Some tips; Wire.raw := None; Wire.version := None |};
  err := None
|}.

(** A record broken off in the middle: nothing stored, a syntax error. *)
Definition broken_record : DecodeResult :=
  {| stored := Wire.empty; err := Some json_SyntaxError |}.

(** The first two attempts to open the port fail.  Port 2 delivers two
    records, a broken one in between, and then is at end-of-stream; every
    later port is at end-of-stream at once.  The store refuses the write
    of the report numbered 1. *)
Definition sample_world : World := {|
  serial_OpenPort := fun n _ _ =>
    match n with
    | O | S O => None
    | _ => Some n
    end;
  json_stream := fun h =>
    match h with
    | S (S O) => [record (68)%f32 (100)%f32 1 3; broken_record; record (90)%f32 (60)%f32 0 3]
    | _ => []
    end;
  influx_NewBatchPoints := fun _ => None;
  influx_Write := fun k _ =>
    match k with
    | S O => Some (errorString "timeout")
    | _ => None
    end;
  time_Now := fun k => 1446336000 + Z.of_nat k
|}.

(** The reader of [sample_world] once port 2 is open. *)
Definition connected_sample : Task :=
  {| dev := {| config := sample_config; conn := Some 2%nat;
               status := Connected; statusMu := unlocked |};
     opens := 3; trace := [] |}.

(** ** What a failed store of a report is *)

Section StoreFailure.
Context (W : World).

(** The batch [storeReport] submits for the report numbered [k]. *)
Definition empty_batch (cfg : config.Config) : BatchPoints :=
  {| Database := config.InfluxDBName (config.InfluxDB cfg);
     Precision := "s"; points := [] |}.

Definition batch_for (cfg : config.Config) (k : nat) (report : WxReport.t) : BatchPoints :=
  AddPoint (empty_batch cfg)
    (NewPoint "wxreport" (report_tags report) (report_fields report) (time_Now W k)).

(** Building the batch or writing it fails for the report numbered [k]. *)
Definition store_failure (cfg : config.Config) (k : nat) (report : WxReport.t) : option error :=
  match influx_NewBatchPoints W k with
  | Some e => Some e
  | None => influx_Write W k (batch_for cfg k report)
  end.

(** The trace of a report whose store failed with [e]: taken from the
    channel, one attempt, the error logged, nothing more. *)
Definition dropped_events (cfg : config.Config) (k : nat) (report : WxReport.t) (e : error)
  : list Event :=
  match influx_NewBatchPoints W k with
  | Some _ =>
      [EvReceive report; EvNewBatchPoints (empty_batch cfg) (Some e);
       EvLog (ErrorLoggingReport e)]
  | None =>
      [EvReceive report; EvNewBatchPoints (empty_batch cfg) None;
       EvWrite (batch_for cfg k report) (Some e); EvLog (ErrorLoggingDataPoint e)]
  end.

End StoreFailure.

(** ** A short run of the two goroutines in [sample_world] *)

Definition sample_record_1 : DecodeResult := record (68)%f32 (100)%f32 1 3.

Definition sample_report_1 : WxReport.t :=
  @generateWxReport knownMath (Unmarshal (stored sample_record_1) WxPacket.zero).

(** [main] has connected at its third attempt. *)
Definition sample_reader_0 : Task :=
  {| dev := dev connected_sample; opens := 3;
     trace := connect_events "/dev/ttyUSB0" 57600 2 2%nat |}.

Definition sample_state_0 : System :=
  {| reader := sample_reader_0; reader_pc := AtNewDecoder;
     writer := writer_start; writer_pc := AtReceive |}.

(** The reader has created its decoder, *)
Definition sample_state_1 : System :=
  {| reader := sample_reader_0;
     reader_pc := AtDecode (Some (json_stream sample_world 2%nat));
     writer := writer_start; writer_pc := AtReceive |}.

(** decoded the first record, *)
Definition sample_state_2 : System :=
  {| reader := {| dev := dev connected_sample; opens := 3;
                  trace := trace sample_reader_0 ++ [EvDecode sample_record_1] |};
     reader_pc := AtSend (Some (tl (json_stream sample_world 2%nat))) sample_report_1;
     writer := writer_start; writer_pc := AtReceive |}.

(** and handed its report to the writer. *)
Definition sample_state_3 : System :=
  {| reader := {| dev := dev connected_sample; opens := 3;
                  trace := (trace sample_reader_0 ++ [EvDecode sample_record_1])
                           ++ [EvSend sample_report_1] |};
     reader_pc := AtDecode (Some (tl (json_stream sample_world 2%nat)));
     writer := receive sample_report_1 writer_start;
     writer_pc := AtStore sample_report_1 |}.


Definition sample_record_2 : DecodeResult := record (90)%f32 (60)%f32 0 3.

Definition sample_report_2 : WxReport.t :=
  @generateWxReport knownMath (Unmarshal (stored sample_record_2) WxPacket.zero).

(** The report built from a packet in which [Decode] stored nothing. *)
Definition zero_report : WxReport.t := @generateWxReport knownMath WxPacket.zero.

(** A wire record that carries a humidity and a wind speed and no
    temperature. *)
Definition no_temperature : Wire.t := {|
  Wire.ready := Some true; Wire.status := None;
  Wire.transmitter_id := Some 1; Wire.RSSI := None;
  Wire.recv_packets := None; Wire.lost_packets := None; Wire.bad_CRC := None;
  Wire.wind_speed_mph := Some 5; Wire.wind_direction_degrees := None;
  Wire.temperature_F := None; Wire.humidity_pct := Some (50)%f32;
  Wire.UV_index := None; Wire.solar_Wm2 := None;
  Wire.rain_spoons := None; Wire.raw := None; Wire.version := None
|}.

(** The task a computation stopped in, and what it returned. *)
Definition task_of {A : Type} (r : Res A) : Task :=
  match r with
  | Ret _ t => t
  | Halt _ t => t
  end.

Definition returned {A : Type} (r : Res A) : option A :=
  match r with
  | Ret a _ => Some a
  | Halt _ _ => None
  end.

(** ** What holds of the reader between two moves *)

(** The link is up: the status is [Connected], a port is stored, and
    nobody holds the mutex. *)
Definition link_up (t : Task) : Prop :=
  status (dev t) = Connected
  /\ statusMu (dev t) = unlocked
  /\ exists h, conn (dev t) = Some h.

(** The decoder the reader holds, if it holds one, is over a port. *)
Definition decoder_over_port (pc : ReaderPc) : Prop :=
  match pc with
  | AtDecode None | AtSend None _ => False
  | _ => True
  end.

(** [Decode] calls that returned [io.EOF], and assignments of [s] to
    [d.status], in a trace. *)
Fixpoint eof_decodes (tr : list Event) : nat :=
  match tr with
  | [] => 0
  | EvDecode r :: tr' =>
      match err r with
      | Some io_EOF => S (eof_decodes tr')
      | _ => eof_decodes tr'
      end
  | _ :: tr' => eof_decodes tr'
  end.

Definition same_status (a b : ConnStatus) : bool :=
  match a, b with
  | NotConnected, NotConnected | Connecting, Connecting | Connected, Connected => true
  | _, _ => false
  end.

Fixpoint status_sets (s : ConnStatus) (tr : list Event) : nat :=
  match tr with
  | [] => 0
  | EvSetStatus s' :: tr' =>
      if same_status s s' then S (status_sets s tr') else status_sets s tr'
  | _ :: tr' => status_sets s tr'
  end.

(** An event that, if it is a call of [serial.OpenPort], names the device
    and the baud rate of [cfg]. *)
Definition opens_configured (cfg : config.Config) (e : Event) : Prop :=
  match e with
  | EvOpenPort name baud _ =>
      name = config.Device (config.Si2000 cfg) /\ baud = config.Baud (config.Si2000 cfg)
  | _ => True
  end.

(** What one move of the reader adds to its trace when the link is up and
    the move returns; [n] calls of [serial.OpenPort] were made before it,
    and [name] and [baud] are the configured device and baud rate. *)
Inductive reader_move (W : World) (n : nat) (name : string) (baud : Z)
  : list Event -> Prop :=
| move_silent : reader_move W n name baud []
| move_decoded : forall r,
    err r <> Some io_EOF -> reader_move W n name baud [EvDecode r]
| move_sent : forall report, reader_move W n name baud [EvSend report]
| move_reconnected : forall r k h,
    err r = Some io_EOF ->
    (forall i, (i < k)%nat -> serial_OpenPort W (n + i) name baud = None) ->
    serial_OpenPort W (n + k) name baud = Some h ->
    reader_move W n name baud
      ([EvDecode r; EvLog (ErrorReadingFromDevice io_EOF); EvSetStatus NotConnected]
       ++ connect_events name baud k h).

(** [connected_sample] after a call of [connectToSerialSi1000] that found
    the status [Connected]. *)
Definition read_locked_sample : Task :=
  {| dev := {| config := sample_config; conn := Some 2%nat; status := Connected;
               statusMu := {| readerCount := 1; writerHeld := false |} |};
     opens := 3; trace := [] |}.

(** An environment in which every port opens at once and is at
    end-of-stream from the start. *)
Definition quiet_world : World := {|
  serial_OpenPort := fun n _ _ => Some n;
  json_stream := fun _ => [];
  influx_NewBatchPoints := fun _ => None;
  influx_Write := fun _ _ => None;
  time_Now := fun _ => 0
|}.

(** [main] in [quiet_world]: connected to port 0, *)
Definition quiet_reader_0 : Task :=
  {| dev := {| config := sample_config; conn := Some 0%nat;
               status := Connected; statusMu := unlocked |};
     opens := 1;
     trace := connect_events "/dev/ttyUSB0" 57600 0 0%nat |}.

Definition quiet_state_0 : System :=
  {| reader := quiet_reader_0; reader_pc := AtNewDecoder;
     writer := writer_start; writer_pc := AtReceive |}.

(** with a decoder over it, *)
Definition quiet_state_1 : System :=
  {| reader := quiet_reader_0; reader_pc := AtDecode (Some []);
     writer := writer_start; writer_pc := AtReceive |}.

(** and after its first end-of-stream: port 1 was opened at the
    reconnect. *)
Definition quiet_state : System :=
  {| reader := {| dev := {| config := sample_config; conn := Some 1%nat;
                            status := Connected; statusMu := unlocked |};
                  opens := 2;
                  trace := connect_events "/dev/ttyUSB0" 57600 0 0%nat
                           ++ [EvDecode at_EOF; EvLog (ErrorReadingFromDevice io_EOF);
                               EvSetStatus NotConnected]
                           ++ connect_events "/dev/ttyUSB0" 57600 0 1%nat |};
     reader_pc := AtNewDecoder;
     writer := writer_start; writer_pc := AtReceive |}.

(** ** What the store holds after a run of the writer *)

Section Stored.
Context (W : World) (cfg : config.Config).

(** The batches of the reports [reports], the first of them numbered [k],
    whose construction and write both succeed. *)
Fixpoint stored_batches (k : nat) (reports : list WxReport.t) : list (nat * BatchPoints) :=
  match reports with
  | [] => []
  | report :: rest =>
      match store_failure W cfg k report with
      | None => [(k, batch_for W cfg k report)]
      | Some _ => []
      end ++ stored_batches (S k) rest
  end.

End Stored.

(** An integer written in decimal digits. *)
Definition decimal (n : Z) : string := NilZero.string_of_int (Z.to_int n).

(** The integers [lo], [lo + 1], ..., [lo + n - 1]. *)
Definition Zseq (lo : Z) (n : nat) : list Z := map (fun i => lo + Z.of_nat i) (seq 0 n).

(** Equality of floating-point numbers as data (not [==]: [NaN] equals
    [NaN] here and the two zeros differ). *)
Definition spec_float_eqb (x y : spec_float) : bool :=
  match x, y with
  | S754_zero a, S754_zero b => Bool.eqb a b
  | S754_infinity a, S754_infinity b => Bool.eqb a b
  | S754_nan, S754_nan => true
  | S754_finite a m e, S754_finite b m' e' => Bool.eqb a b && Pos.eqb m m' && Z.eqb e e'
  | _, _ => false
  end.

(** The special cases the documentation of [math.Log] lists,
    [Log(+Inf) = +Inf], [Log(0) = -Inf], [Log(x < 0) = NaN] and
    [Log(NaN) = NaN], with [Log(1) = 0] and [Pow(1, y) = 1]; every other
    result is left as [NaN]. *)
Definition documentedMath : GoMath := {|
  math_Log := fun x =>
    match x with
    | S754_zero _ => S754_infinity true
    | S754_infinity false => S754_infinity false
    | S754_finite false _ _ => if SFeqb x (1)%f64 then (0)%f64 else NaN
    | _ => NaN
    end;
  math_Pow := fun x y => if SFeqb x (1)%f64 then (1)%f64 else NaN;
  math_Pow_1_y := fun y => eq_refl
|}.

(** A wire record that carries none of the keys a report is built from;
    the keys [ready], [status], [RSSI], the packet counters, [raw] and
    [version] may be there. *)
Definition carries_no_measurement (w : Wire.t) : Prop :=
  Wire.transmitter_id w = None
  /\ Wire.wind_speed_mph w = None
  /\ Wire.wind_direction_degrees w = None
  /\ Wire.temperature_F w = None
  /\ Wire.humidity_pct w = None
  /\ Wire.UV_index w = None
  /\ Wire.solar_Wm2 w = None
  /\ Wire.rain_spoons w = None.

(** Every field zero, and a dewpoint of 32 degrees. *)
Definition empty_report : WxReport.t := {|
  WxReport.TransmitterID := 0; WxReport.WindSpeed := 0; WxReport.WindDir := 0;
  WxReport.Temperature := (0)%f32; WxReport.Humidity := (0)%f32;
  WxReport.Dewpoint := (32.0)%f32; WxReport.HeatIndex := (0)%f32;
  WxReport.WindChill := (0)%f32; WxReport.UVIndex := (0)%f32;
  WxReport.SolarRadiation := (0)%f32; WxReport.Rainfall := (0)%f32
|}.

(** A message of the receiver that it is not ready yet. *)
Definition status_message : DecodeResult := {|
  stored := {|
    Wire.ready := Some false; Wire.status := Some "searching"%string;
    Wire.transmitter_id := None; Wire.RSSI := Some 0;
    Wire.recv_packets := Some 0; Wire.lost_packets := Some 0; Wire.bad_CRC := Some 0;
    Wire.wind_speed_mph := None; Wire.wind_direction_degrees := None;
    Wire.temperature_F := None; Wire.humidity_pct := None;
    Wire.UV_index := None; Wire.solar_Wm2 := None;
    Wire.rain_spoons := None; Wire.raw := None; Wire.version := Some "1.0"%string |};
  err := None
|}.

(** ** config/config.go: New, and wxinflux.go: the start of main *)

(** The host of the process: the [-config] flag as [flag.Parse] left it
    (["config.yaml"] by default), [filepath.Abs], [ioutil.ReadFile], and
    [yaml.Unmarshal]: [yaml_Unmarshal data c] is the value of [c] after
    [yaml.Unmarshal(data, &c)] and the error it returned. *)
Record Host := {
  flag_config : string;
  filepath_Abs : string -> string;
  ioutil_ReadFile : string -> list Byte.byte * option error;
  yaml_Unmarshal : list Byte.byte -> config.Config -> config.Config * option error
}.

(** [Config{}] *)
Definition Config_zero : config.Config := {|
  config.InfluxDB := {| config.InfluxURL := EmptyString;
                        config.InfluxDBName := EmptyString;
                        config.InfluxUser := EmptyString;
                        config.InfluxPass := EmptyString |};
  config.Si2000 := {| config.Device := EmptyString; config.Baud := 0 |}
|}.

(** [config.New] *)
Definition config_New (H : Host) (filename : string) : config.Config * option error :=
  let '(cfgFile, err) := ioutil_ReadFile H filename in
  match err with
  | Some e => (Config_zero, Some e)
  | None =>
      let c := Config_zero in
      let '(c, err) := yaml_Unmarshal H cfgFile c in
      match err with
      | Some e => (Config_zero, Some e)
      | None => (c, None)
      end
  end.

(** How [main] gets on up to its [go] statement: it ends the process at
    [log.Fatalln], or it is at (or in) [d.connectToSerialSi1000()]. *)
Inductive Startup :=
| Exits (e : error)
| Connects (r : Res unit).

Definition main (H : Host) (W : World) (fuel : nat) : Startup :=
  let cfgFile := flag_config H in
  (* Read our server configuration *)
  let filename := filepath_Abs H cfgFile in
  let '(cfg, err) := config_New H filename in
  match err with
  | Some e => Exits e
  | None =>
      (* d := NewDavisSi1000(); d.config = cfg; d.connectToSerialSi1000() *)
      Connects (connectToSerialSi1000 W fuel (start cfg))
  end.

(** A host whose configuration file decodes to [sample_config], and one
    that has no such file. *)
Definition sample_host : Host := {|
  flag_config := "config.yaml";
  filepath_Abs := fun f => String.append "/etc/wxinflux/" f;
  ioutil_ReadFile := fun f =>
    if String.eqb f "/etc/wxinflux/config.yaml" then ([Byte.x73; Byte.x69], None)
    else ([], Some (errorString "no such file or directory"));
  yaml_Unmarshal := fun _ _ => (sample_config, None)
|}.

Definition bare_host : Host := {|
  flag_config := "config.yaml";
  filepath_Abs := fun f => String.append "/root/" f;
  ioutil_ReadFile := fun _ => ([], Some (errorString "no such file or directory"));
  yaml_Unmarshal := fun _ c => (c, None)
|}.

(* ================================================================== *)
(** * Part II: properties *)
(* ================================================================== *)

(** ** Comparisons of floating-point numbers *)

Lemma SFcompare_swap (x y : spec_float) :
  SFcompare y x = match SFcompare x y with
                  | Some c => Some (CompOpp c)
                  | None => None
                  end.
Proof.
  destruct x as [sx | sx | | sx mx ex], y as [sy | sy | | sy my ey]; simpl;
    try reflexivity;
    try (destruct sx; reflexivity);
    try (destruct sy; reflexivity);
    try (destruct sx, sy; reflexivity).
  assert (Hm : Pos.compare_cont Eq my mx = CompOpp (Pos.compare_cont Eq mx my))
    by (rewrite (Pos.compare_cont_antisym mx my Eq); reflexivity).
  destruct sx, sy; try reflexivity;
    rewrite (Z.compare_antisym ex ey), Hm;
    destruct (ex ?= ey); reflexivity.
Qed.

Lemma ltb_true_leb_false (x y : float32) :
  F32.ltb x y = true -> F32.leb y x = false.
Proof.
  unfold F32.ltb, F32.leb, SFltb, SFleb.
  rewrite (SFcompare_swap x y).
  destruct (SFcompare x y) as [[ | | ] | ]; simpl; congruence.
Qed.

Lemma leb_true_ltb_false (x y : float32) :
  F32.leb x y = true -> F32.ltb y x = false.
Proof.
  unfold F32.ltb, F32.leb, SFltb, SFleb.
  rewrite (SFcompare_swap x y).
  destruct (SFcompare x y) as [[ | | ] | ]; simpl; congruence.
Qed.

(** ** The metric calculator *)

Section CalcFacts.
Context {M : GoMath}.
Local Open Scope f32_scope.

Lemma cToF_zero : cToF 0.0 = 32.0.
Proof. vm_compute. reflexivity. Qed.

Lemma dewpointCelcius_below_zero (t rh : float32) :
  (t <? 0) = true -> dewpointCelcius t rh = 0.0.
Proof.
  intros Hneg. unfold dewpointCelcius. rewrite Hneg. reflexivity.
Qed.

(** The first guard already covers the second: a temperature equal to
    [-237.7] is below zero. *)
Lemma minus_237_7_below_zero (t : float32) :
  (t =? -237.7) = true -> (t <? 0) = true.
Proof.
  unfold F32.eqb, F32.ltb, SFeqb, SFltb.
  destruct t as [s | s | | [ | ] m e]; cbv beta iota delta [SFcompare];
    try discriminate; try reflexivity.
  destruct s; [reflexivity | discriminate].
Qed.

Lemma dewpointCelcius_degenerate (t rh : float32) :
  (t <? 0) = true \/ (t =? -237.7) = true \/ (dewpoint_gamma t rh =? 17.27) = true ->
  dewpointCelcius t rh = 0.0.
Proof.
  intros [Hneg | [Hguard | Hgamma]].
  - apply dewpointCelcius_below_zero, Hneg.
  - apply dewpointCelcius_below_zero, minus_237_7_below_zero, Hguard.
  - unfold dewpointCelcius.
    destruct (t <? 0); [reflexivity | ].
    destruct (t =? -237.7); [reflexivity | ].
    unfold dewpoint_gamma in Hgamma. cbv zeta. rewrite Hgamma. reflexivity.
Qed.

Lemma dewpointFahrenheit_below_zero (t rh : float32) :
  (fToC t <? 0) = true -> dewpointFahrenheit t rh = 32.0.
Proof.
  intros Hneg. unfold dewpointFahrenheit.
  rewrite (dewpointCelcius_below_zero _ rh Hneg). apply cToF_zero.
Qed.

(** C2 (as amended).  Whenever the temperature converted to Celsius is
    below 0, or equals -237.7, or the intermediate value γ equals 17.27,
    [dewpointCelcius] returns exactly 0.0 (degrees Celsius), and so the
    Fahrenheit-in, Fahrenheit-out function returns [cToF 0.0], which is
    exactly 32.0, for every humidity. *)
Theorem dewpointFahrenheit_degenerate (t rh : float32) :
  (fToC t <? 0) = true
  \/ (fToC t =? -237.7) = true
  \/ (dewpoint_gamma (fToC t) rh =? 17.27) = true ->
  dewpointCelcius (fToC t) rh = 0.0 /\ dewpointFahrenheit t rh = 32.0.
Proof.
  intros Hcase.
  assert (Hc : dewpointCelcius (fToC t) rh = 0.0)
    by (apply dewpointCelcius_degenerate; exact Hcase).
  split; [exact Hc | ].
  unfold dewpointFahrenheit. rewrite Hc. apply cToF_zero.
Qed.

Lemma windchill_unchanged (t ws : float32) :
  (t >=? 50) = true \/ (ws <=? 0) = true -> windchillFahrenheit t ws = t.
Proof.
  intros Hout. unfold windchillFahrenheit.
  destruct Hout as [Ht | Hws].
  - rewrite Ht. reflexivity.
  - rewrite Hws, orb_true_r. reflexivity.
Qed.

Lemma windchill_in_range (t ws : float32) :
  (t <? 50) = true -> (ws >? 0) = true ->
  windchillFahrenheit t ws = windchill_formula t ws.
Proof.
  intros Ht Hws. unfold windchillFahrenheit, windchill_formula.
  rewrite (ltb_true_leb_false _ _ Ht), (ltb_true_leb_false _ _ Hws).
  reflexivity.
Qed.

(** The two branches of [windchillFahrenheit] as the code has them: it
    returns [t] unchanged whenever [t >= 50] or [ws <= 0], and for
    [t < 50] with [ws > 0] it returns
    [35.74 + 0.6215 t + (-35.75 + 0.4275 t) ws^0.16] computed in single
    precision.  The boundary [t = 50] falls in the first branch, against
    the comment of the source. *)
Theorem windchillFahrenheit_cases (t ws : float32) :
  ((t >=? 50) = true \/ (ws <=? 0) = true -> windchillFahrenheit t ws = t)
  /\ ((t <? 50) = true -> (ws >? 0) = true ->
      windchillFahrenheit t ws = windchill_formula t ws).
Proof.
  split.
  - apply windchill_unchanged.
  - apply windchill_in_range.
Qed.

Lemma noaa_coefficients (t rh : float32) :
  (-42.379 + 2.04901523 * t + 10.14333127 * rh
   - 0.22475541 * t * rh - 6.83783e-3 * t * t
   - 5.481717e-2 * rh * rh + 1.22874e-3 * t * t * rh
   + 8.5282e-4 * t * rh * rh - 1.99e-6 * t * t * rh * rh)
  = noaa_heat_index t rh.
Proof. unfold noaa_heat_index. reflexivity. Qed.

(** C4.  [heatIndexFahrenheit t rh] returns [t] unchanged whenever
    [t < 80] or [rh <= 40], and for [t >= 80] with [rh > 40] it returns the
    NOAA regression polynomial in [t] and [rh] computed in single
    precision. *)
Theorem heatIndexFahrenheit_cases (t rh : float32) :
  ((t <? 80.0) = true \/ (rh <=? 40.0) = true -> heatIndexFahrenheit t rh = t)
  /\ ((t >=? 80.0) = true -> (rh >? 40.0) = true ->
      heatIndexFahrenheit t rh = noaa_heat_index t rh).
Proof.
  unfold heatIndexFahrenheit. split.
  - intros [Ht | Hrh].
    + rewrite Ht. reflexivity.
    + rewrite Hrh, orb_true_r. reflexivity.
  - intros Ht Hrh.
    rewrite (leb_true_ltb_false _ _ Ht), (ltb_true_leb_false _ _ Hrh).
    cbv zeta. simpl orb. cbv iota. apply noaa_coefficients.
Qed.

End CalcFacts.

Section CalcExamples.
Local Open Scope f32_scope.

(** On concrete inputs: a heat index above the dry-bulb temperature at
    90 degrees and 60 percent, and a saturated dewpoint equal to the
    temperature. *)
Example heatIndex_90_60 :
  (90 <? heatIndexFahrenheit 90 60) = true.
Proof. vm_compute. reflexivity. Qed.

Example dewpoint_68_saturated :
  @dewpointFahrenheit knownMath (68) (100) = (68).
Proof. vm_compute. reflexivity. Qed.

Lemma dewpointFahrenheit_degenerate_witness :
  ((fToC 14 <? 0) = true
   /\ @dewpointCelcius knownMath (fToC 14) 50 = 0.0
   /\ @dewpointFahrenheit knownMath 14 50 = 32.0)
  /\ ((fToC 32 <? 0) = false
      /\ (@dewpoint_gamma knownMath (fToC 32) 3164214528 =? 17.27) = true
      /\ @dewpointCelcius knownMath (fToC 32) 3164214528 = 0.0
      /\ @dewpointFahrenheit knownMath 32 3164214528 = 32.0).
Proof.
  split.
  - split; [vm_compute; reflexivity | ].
    apply (@dewpointFahrenheit_degenerate knownMath 14 50).
    left. vm_compute. reflexivity.
  - split; [vm_compute; reflexivity | split; [vm_compute; reflexivity | ]].
    apply (@dewpointFahrenheit_degenerate knownMath 32 3164214528).
    right. right. vm_compute. reflexivity.
Defined.

(** C2 as the specification states it fails: 14 degrees Fahrenheit is
    -10 degrees Celsius, below zero, and the function returns 32.0, not
    0.0, whatever [math.Log] computes. *)
Lemma dewpoint_below_freezing_counterexample :
  (fToC 14 <? 0) = true
  /\ (forall M : GoMath, @dewpointFahrenheit M (14) (50) = (32.0))
  /\ (32.0) <> (0.0).
Proof.
  split; [vm_compute; reflexivity | split].
  - intros M.
    apply (@dewpointFahrenheit_below_zero M 14 50).
    vm_compute. reflexivity.
  - vm_compute. discriminate.
Qed.

Lemma windchillFahrenheit_cases_witness :
  ((50 >=? 50) = true /\ @windchillFahrenheit knownMath (50) (1) = (50))
  /\ ((20 <? 50) = true /\ (1 >? 0) = true
      /\ @windchillFahrenheit knownMath (20) (1)
         = @windchill_formula knownMath (20) (1)).
Proof.
  split.
  - split; [vm_compute; reflexivity | ].
    apply (proj1 (@windchillFahrenheit_cases knownMath (50) (1))).
    left. vm_compute. reflexivity.
  - split; [vm_compute; reflexivity | split; [vm_compute; reflexivity | ]].
    apply (proj2 (@windchillFahrenheit_cases knownMath (20) (1)));
      vm_compute; reflexivity.
Defined.

Lemma float64_of_float32_one : float64_of_float32 1 = (1)%f64.
Proof. vm_compute. reflexivity. Qed.

Lemma windchill_at_50_1 (M : GoMath) :
  windchillFahrenheit (50) (1) = (50)
  /\ windchill_formula 50 1 = S754_finite false 13746832%positive (-18)%Z.
Proof.
  split.
  - apply windchill_unchanged. left. vm_compute. reflexivity.
  - unfold windchill_formula.
    rewrite float64_of_float32_one, math_Pow_1_y.
    vm_compute. reflexivity.
Qed.

(** At exactly 50 degrees and a wind of 1 mph the function and the
    formula differ, whatever [math.Pow] computes elsewhere. *)
Lemma windchill_at_50_counterexample :
  (50 <=? 50) = true /\ (1 >? 0) = true
  /\ (forall M : GoMath,
        @windchillFahrenheit M (50) (1)
        <> @windchill_formula M (50) (1)).
Proof.
  split; [vm_compute; reflexivity | split; [vm_compute; reflexivity | ]].
  intros M.
  destruct (windchill_at_50_1 M) as [Hcode Hformula].
  rewrite Hcode, Hformula. vm_compute. discriminate.
Qed.

(** C3 at exactly 50 degrees.  The source comment says that wind chill
    is valid for temperatures less than or equal to 50 degrees and wind
    speeds over 0 mph, and the claim gives the formula for [t <= 50] with
    [ws > 0]; but the guard of the code is [t >= 50], so at [t = 50] the
    function returns 50 unchanged for every wind speed.  At [ws = 1],
    where [Pow(1, 0.16) = 1], the formula is 13746832 * 2^-18, about
    52.44, which is not 50. *)
Theorem windchillFahrenheit_at_50 :
  (forall (M : GoMath) (ws : float32), @windchillFahrenheit M 50 ws = 50)
  /\ (50 <=? 50) = true
  /\ (1 >? 0) = true
  /\ (forall M : GoMath,
        @windchill_formula M 50 1 = S754_finite false 13746832%positive (-18)%Z)
  /\ S754_finite false 13746832%positive (-18)%Z <> 50.
Proof.
  split; [ | split; [ | split; [ | split]]].
  - intros M ws. apply windchill_unchanged. left. vm_compute. reflexivity.
  - vm_compute. reflexivity.
  - vm_compute. reflexivity.
  - intros M. unfold windchill_formula.
    rewrite float64_of_float32_one, math_Pow_1_y.
    vm_compute. reflexivity.
  - vm_compute. discriminate.
Qed.

Lemma heatIndexFahrenheit_cases_witness :
  ((70 <? 80.0) = true /\ heatIndexFahrenheit (70) (60) = (70))
  /\ ((90 >=? 80.0) = true /\ (60 >? 40.0) = true
      /\ heatIndexFahrenheit (90) (60) = noaa_heat_index (90) (60)).
Proof.
  split.
  - split; [vm_compute; reflexivity | ].
    apply (proj1 (heatIndexFahrenheit_cases (70) (60))).
    left. vm_compute. reflexivity.
  - split; [vm_compute; reflexivity | split; [vm_compute; reflexivity | ]].
    apply (proj2 (heatIndexFahrenheit_cases (90) (60)));
      vm_compute; reflexivity.
Defined.

End CalcExamples.

(** ** generateWxReport *)

Section ReportFacts.
Context {M : GoMath}.

Lemma rainfall_zero : rainfall 0 = (0.0)%f32.
Proof. vm_compute. reflexivity. Qed.

(** C8.  The rainfall of the report built from a packet is its tip count
    times 0.1 in single precision: the count converted to [float32],
    multiplied by the [float32] nearest to 0.1.  This holds for every
    count, and a count of 0 gives exactly 0. *)
Theorem generateWxReport_rainfall :
  (forall p : WxPacket.t,
      WxReport.Rainfall (generateWxReport p) = rainfall (WxPacket.RainSpoons p))
  /\ (forall (w : Wire.t) (n : Z),
         Wire.rain_spoons w = Some n ->
         WxReport.Rainfall (generateWxReport (Unmarshal w WxPacket.zero)) = rainfall n)
  /\ (forall w : Wire.t,
         Wire.rain_spoons w = None ->
         WxReport.Rainfall (generateWxReport (Unmarshal w WxPacket.zero)) = (0.0)%f32).
Proof.
  split; [ | split].
  - intros p. reflexivity.
  - intros w n Hn. simpl. rewrite Hn. reflexivity.
  - intros w Hn. simpl. rewrite Hn. simpl. apply rainfall_zero.
Qed.

(** C10.  [generateWxReport] computes every derived metric from the
    packet's fields, whatever they hold; a key absent from the wire record
    leaves the zero value in the packet, so a record without a temperature
    yields the dewpoint, heat index and wind chill of 0 degrees. *)
Theorem generateWxReport_unconditional (w : Wire.t) :
  let p := Unmarshal w WxPacket.zero in
  let r := generateWxReport p in
  (WxReport.Dewpoint r = dewpointFahrenheit (WxPacket.Temperature p) (WxPacket.Humidity p)
   /\ WxReport.HeatIndex r
      = heatIndexFahrenheit (WxPacket.Temperature p) (WxPacket.Humidity p)
   /\ WxReport.WindChill r
      = windchillFahrenheit (WxPacket.Temperature p)
          (float32_of_uint (WxPacket.WindSpeed p)))
  /\ (Wire.temperature_F w = None ->
      WxPacket.Temperature p = (0)%f32
      /\ WxReport.Dewpoint r = dewpointFahrenheit (0)%f32 (WxPacket.Humidity p)
      /\ WxReport.HeatIndex r = heatIndexFahrenheit (0)%f32 (WxPacket.Humidity p)
      /\ WxReport.WindChill r
         = windchillFahrenheit (0)%f32 (float32_of_uint (WxPacket.WindSpeed p))).
Proof.
  cbv zeta. split.
  - repeat split.
  - intros Habsent.
    assert (Ht : WxPacket.Temperature (Unmarshal w WxPacket.zero) = (0)%f32)
      by (simpl; rewrite Habsent; reflexivity).
    split; [exact Ht | ].
    unfold generateWxReport. cbv zeta.
    cbn [WxReport.Dewpoint WxReport.HeatIndex WxReport.WindChill].
    rewrite Ht. repeat split.
Qed.

End ReportFacts.

(** ** The connection manager *)

Section ConnectFacts.
Context (W : World).

Lemma failed_attempts_snoc (name : string) (baud : Z) (k : nat) :
  failed_attempts name baud (S k)
  = [EvOpenPort name baud None; EvLog SleepingAndTryingAgain; EvSleep 5]
    ++ failed_attempts name baud k.
Proof. reflexivity. Qed.

(** The retry loop returns at the first successful attempt, however many
    failed before it. *)
Lemma connectLoop_succeeds (k : nat) :
  forall (fuel : nat) (t : Task) (h : Handle),
    statusMu (dev t) = unlocked ->
    (forall i, (i < k)%nat ->
               serial_OpenPort W (opens t + i) (device_of t) (baud_of t) = None) ->
    serial_OpenPort W (opens t + k) (device_of t) (baud_of t) = Some h ->
    (k < fuel)%nat ->
    connectLoop W fuel t
    = Ret tt {| dev := {| config := config (dev t); conn := Some h;
                          status := Connected; statusMu := unlocked |};
                opens := opens t + S k;
                trace := trace t
                         ++ failed_attempts (device_of t) (baud_of t) k
                         ++ [EvOpenPort (device_of t) (baud_of t) (Some h);
                             EvSetStatus Connected;
                             EvLog (ConnectionSuccessful (device_of t))] |}.
Proof.
  induction k as [ | k IH]; intros fuel t h Hmu Hfail Hok Hfuel;
    (destruct fuel as [ | fuel]; [lia | ]);
    destruct t as [[cfg c st mu] n tr];
    unfold device_of, baud_of in *; simpl in Hmu, Hfail, Hok |- *; subst mu.
  - rewrite Nat.add_0_r in Hok.
    unfold bind, get_config, OpenPort, set_conn; simpl. rewrite Hok. simpl.
    rewrite Nat.add_1_r. repeat rewrite <- app_assoc. reflexivity.
  - pose proof (Hfail O ltac:(lia)) as H0. rewrite Nat.add_0_r in H0.
    unfold bind at 1 2 3, get_config, OpenPort, set_conn; simpl. rewrite H0.
    unfold bind at 1 2, Println, Sleep, emit; simpl.
    rewrite (IH fuel _ h); simpl; unfold device_of, baud_of; simpl.
    + f_equal. f_equal; [lia | ].
      repeat rewrite <- app_assoc. reflexivity.
    + reflexivity.
    + intros i Hi. specialize (Hfail (S i) ltac:(lia)).
      rewrite <- Hfail. f_equal. lia.
    + rewrite <- Hok. f_equal. lia.
    + lia.
Qed.

(** There is no attempt limit: while every attempt fails the loop is still
    running, whatever the number of attempts followed. *)
Lemma connectLoop_keeps_trying (fuel : nat) :
  forall t : Task,
    (forall i, serial_OpenPort W (opens t + i) (device_of t) (baud_of t) = None) ->
    exists t',
      connectLoop W fuel t = Halt OutOfFuel t'
      /\ opens t' = (opens t + fuel)%nat
      /\ trace t' = trace t ++ failed_attempts (device_of t) (baud_of t) fuel.
Proof.
  induction fuel as [ | fuel IH]; intros t Hfail.
  - exists t. simpl. rewrite Nat.add_0_r, app_nil_r. repeat split.
  - destruct t as [[cfg c st mu] n tr].
    unfold device_of, baud_of in *; simpl in Hfail |- *.
    pose proof (Hfail O) as H0. rewrite Nat.add_0_r in H0.
    unfold bind at 1 2 3, get_config, OpenPort, set_conn; simpl. rewrite H0.
    unfold bind at 1 2, Println, Sleep, emit; simpl.
    match goal with
    | |- exists t', connectLoop W fuel ?t1 = _ /\ _ => destruct (IH t1) as [t' [Hrun [Hopens Htrace]]]
    end.
    + unfold device_of, baud_of; simpl. intros i.
      rewrite <- (Hfail (S i)). f_equal. lia.
    + exists t'. split; [exact Hrun | ]. split.
      * rewrite Hopens. simpl. lia.
      * rewrite Htrace. unfold device_of, baud_of; simpl.
        repeat rewrite <- app_assoc. reflexivity.
Qed.

(** The loop returns only after a successful open: whenever it returns,
    the status is [Connected] and the stored handle is the port its last
    call of [serial.OpenPort] returned. *)
Lemma connectLoop_returns_connected (fuel : nat) :
  forall t t' : Task,
    connectLoop W fuel t = Ret tt t' ->
    status (dev t') = Connected
    /\ exists h, conn (dev t') = Some h
                 /\ (opens t < opens t')%nat
                 /\ serial_OpenPort W (pred (opens t')) (device_of t) (baud_of t) = Some h.
Proof.
  induction fuel as [ | fuel IH]; intros t t' Hrun; [discriminate | ].
  destruct t as [[cfg c st mu] n tr].
  unfold device_of, baud_of in *; simpl in Hrun |- *.
  unfold bind at 1 2 3, get_config, OpenPort, set_conn in Hrun; simpl in Hrun.
  destruct (serial_OpenPort W n (config.Device (config.Si2000 cfg))
              (config.Baud (config.Si2000 cfg))) as [h | ] eqn:Hopen.
  - unfold bind, Lock, Unlock, on_statusMu, set_status, Println, emit, ret in Hrun;
      simpl in Hrun.
    destruct mu as [[ | r] [ | ]]; simpl in Hrun; try discriminate.
    injection Hrun as <-. simpl. split; [reflexivity | ].
    exists h. repeat split; [lia | exact Hopen].
  - unfold bind at 1 2, Println, Sleep, emit in Hrun; simpl in Hrun.
    apply IH in Hrun. unfold device_of, baud_of in Hrun; simpl in Hrun.
    destruct Hrun as [Hst [h [Hc [Hlt Hopen']]]].
    split; [exact Hst | ]. exists h. repeat split; [exact Hc | lia | exact Hopen'].
Qed.

Lemma connect_when_Connecting (fuel : nat) (t : Task) :
  status (dev t) = Connecting ->
  writerHeld (statusMu (dev t)) = false ->
  connectToSerialSi1000 W fuel t
  = Ret tt {| dev := dev t; opens := opens t;
              trace := trace t ++ [EvLog SkippingReconnect] |}.
Proof.
  destruct t as [[cfg c st [r wh]] n tr]; simpl. intros -> ->.
  reflexivity.
Qed.

Lemma connect_when_NotConnected (k fuel : nat) (t : Task) (h : Handle) :
  status (dev t) = NotConnected ->
  statusMu (dev t) = unlocked ->
  (forall i, (i < k)%nat ->
             serial_OpenPort W (opens t + i) (device_of t) (baud_of t) = None) ->
  serial_OpenPort W (opens t + k) (device_of t) (baud_of t) = Some h ->
  (k < fuel)%nat ->
  connectToSerialSi1000 W fuel t
  = Ret tt {| dev := {| config := config (dev t); conn := Some h;
                        status := Connected; statusMu := unlocked |};
              opens := opens t + S k;
              trace := trace t ++ connect_events (device_of t) (baud_of t) k h |}.
Proof.
  intros Hst Hmu Hfail Hok Hfuel.
  destruct t as [[cfg c st mu] n tr]; simpl in Hst, Hmu; subst st mu.
  unfold connectToSerialSi1000.
  unfold bind at 1 2 3 4 5 6 7 8, RLock, RUnlock, Lock, Unlock, on_statusMu,
    get_status, set_status, get_config, Println, emit; simpl.
  rewrite (connectLoop_succeeds k fuel _ h); try assumption; try reflexivity.
  unfold connect_events, device_of, baud_of; simpl.
  repeat rewrite <- app_assoc. reflexivity.
Qed.

Lemma connect_returns_connected (fuel : nat) (t t' : Task) :
  status (dev t) = NotConnected ->
  connectToSerialSi1000 W fuel t = Ret tt t' ->
  status (dev t') = Connected
  /\ exists h, conn (dev t') = Some h
               /\ serial_OpenPort W (pred (opens t')) (device_of t) (baud_of t) = Some h.
Proof.
  intros Hst Hrun.
  destruct t as [[cfg c st [r wh]] n tr]; simpl in Hst; subst st.
  unfold connectToSerialSi1000 in Hrun.
  unfold bind at 1 2 3 4 5 6 7 8, RLock, RUnlock, Lock, Unlock, on_statusMu,
    get_status, set_status, get_config, Println, emit in Hrun; simpl in Hrun.
  destruct wh; simpl in Hrun; [discriminate | ].
  destruct r; simpl in Hrun; [ | discriminate].
  apply connectLoop_returns_connected in Hrun.
  destruct Hrun as [Hconn [h [Hc [_ Hopen]]]].
  split; [exact Hconn | ]. exists h. split; [exact Hc | exact Hopen].
Qed.

Lemma connect_keeps_trying (fuel : nat) (t : Task) :
  status (dev t) = NotConnected ->
  statusMu (dev t) = unlocked ->
  (forall i, serial_OpenPort W (opens t + i) (device_of t) (baud_of t) = None) ->
  exists t',
    connectToSerialSi1000 W fuel t = Halt OutOfFuel t'
    /\ trace t' = trace t
                  ++ [EvSetStatus Connecting; EvLog (ConnectingTo (device_of t))]
                  ++ failed_attempts (device_of t) (baud_of t) fuel.
Proof.
  intros Hst Hmu Hfail.
  destruct t as [[cfg c st mu] n tr]; simpl in Hst, Hmu; subst st mu.
  unfold connectToSerialSi1000.
  unfold bind at 1 2 3 4 5 6 7 8, RLock, RUnlock, Lock, Unlock, on_statusMu,
    get_status, set_status, get_config, Println, emit; simpl.
  match goal with
  | |- exists t', connectLoop W fuel ?t1 = _ /\ _ =>
      destruct (connectLoop_keeps_trying fuel t1) as [t' [Hrun [_ Htrace]]]
  end.
  - exact Hfail.
  - exists t'. split; [exact Hrun | ].
    rewrite Htrace. unfold device_of, baud_of; simpl.
    repeat rewrite <- app_assoc. reflexivity.
Qed.

(** C5.  [connectToSerialSi1000] called in state [Connecting] only logs
    that it skips the reconnect and returns, changing nothing.  Called in
    state [NotConnected] it sets the state to [Connecting], then tries to
    open the configured device at the configured baud rate again and
    again, sleeping 5 seconds after each failure: when the first [k]
    attempts fail and the next one succeeds, for any [k], it returns with
    the opened port stored and the state [Connected]; whenever it returns
    it does so with a port its last attempt opened; and while every
    attempt fails it never returns. *)
Theorem connectToSerialSi1000_spec (t : Task) :
  (status (dev t) = Connecting ->
   writerHeld (statusMu (dev t)) = false ->
   forall fuel,
     connectToSerialSi1000 W fuel t
     = Ret tt {| dev := dev t; opens := opens t;
                 trace := trace t ++ [EvLog SkippingReconnect] |})
  /\ (status (dev t) = NotConnected ->
      statusMu (dev t) = unlocked ->
      (forall k h fuel,
          (forall i, (i < k)%nat ->
                     serial_OpenPort W (opens t + i) (device_of t) (baud_of t) = None) ->
          serial_OpenPort W (opens t + k) (device_of t) (baud_of t) = Some h ->
          (k < fuel)%nat ->
          connectToSerialSi1000 W fuel t
          = Ret tt {| dev := {| config := config (dev t); conn := Some h;
                                status := Connected; statusMu := unlocked |};
                      opens := opens t + S k;
                      trace := trace t
                               ++ connect_events (device_of t) (baud_of t) k h |})
      /\ (forall fuel t',
             connectToSerialSi1000 W fuel t = Ret tt t' ->
             status (dev t') = Connected
             /\ exists h,
                 conn (dev t') = Some h
                 /\ serial_OpenPort W (pred (opens t')) (device_of t) (baud_of t)
                    = Some h)
      /\ ((forall i, serial_OpenPort W (opens t + i) (device_of t) (baud_of t) = None) ->
          forall fuel,
          exists t',
            connectToSerialSi1000 W fuel t = Halt OutOfFuel t'
            /\ trace t' = trace t
                          ++ [EvSetStatus Connecting; EvLog (ConnectingTo (device_of t))]
                          ++ failed_attempts (device_of t) (baud_of t) fuel)).
Proof.
  split.
  - intros Hst Hmu fuel. apply connect_when_Connecting; assumption.
  - intros Hst Hmu. split; [ | split].
    + intros k h fuel Hfail Hok Hfuel.
      apply connect_when_NotConnected; assumption.
    + intros fuel t' Hrun. apply (connect_returns_connected fuel t t' Hst Hrun).
    + intros Hfail fuel. apply connect_keeps_trying; assumption.
Qed.

(** C9.  Called in state [Connected], [connectToSerialSi1000] returns at
    once: it makes no attempt to open the device and leaves the state and
    the stored handle as they were.  (The switch has no case for
    [Connected], so the read lock taken on entry is still held.) *)
Theorem connect_when_Connected (fuel : nat) (t : Task) :
  status (dev t) = Connected ->
  writerHeld (statusMu (dev t)) = false ->
  exists t',
    connectToSerialSi1000 W fuel t = Ret tt t'
    /\ status (dev t') = Connected
    /\ conn (dev t') = conn (dev t)
    /\ config (dev t') = config (dev t)
    /\ opens t' = opens t
    /\ trace t' = trace t
    /\ readerCount (statusMu (dev t')) = S (readerCount (statusMu (dev t))).
Proof.
  destruct t as [[cfg c st [r wh]] n tr]; simpl. intros -> ->.
  eexists. split; [reflexivity | ]. simpl. repeat split.
Qed.

End ConnectFacts.

Lemma connectToSerialSi1000_spec_witness :
  connectToSerialSi1000 sample_world 5 (start sample_config)
  = Ret tt {| dev := {| config := sample_config; conn := Some 2%nat;
                        status := Connected; statusMu := unlocked |};
              opens := 3;
              trace := connect_events "/dev/ttyUSB0" 57600 2 2%nat |}.
Proof.
  assert (Hfail : forall i, (i < 2)%nat ->
            serial_OpenPort sample_world (opens (start sample_config) + i)
              (device_of (start sample_config)) (baud_of (start sample_config)) = None).
  { intros [ | [ | i]] Hi; [reflexivity | reflexivity | lia]. }
  exact (proj1 (proj2 (connectToSerialSi1000_spec sample_world (start sample_config))
                  eq_refl eq_refl)
           2%nat 2%nat 5%nat Hfail eq_refl ltac:(lia)).
Defined.

Lemma connect_when_Connected_witness :
  exists t',
    connectToSerialSi1000 sample_world 0 connected_sample = Ret tt t'
    /\ status (dev t') = Connected
    /\ conn (dev t') = Some 2%nat
    /\ config (dev t') = sample_config
    /\ opens t' = 3%nat
    /\ trace t' = []
    /\ readerCount (statusMu (dev t')) = 1%nat.
Proof.
  exact (connect_when_Connected sample_world 0 connected_sample eq_refl eq_refl).
Defined.

(** ** Reading traces *)


Lemma records_app (a b : list Event) : records (a ++ b) = records a ++ records b.
Proof.
  induction a as [ | e a IH]; [reflexivity | ].
  destruct e; simpl; try exact IH.
  destruct (err r); simpl; rewrite IH; reflexivity.
Qed.


Lemma receives_app (a b : list Event) : receives (a ++ b) = receives a ++ receives b.
Proof.
  induction a as [ | e a IH]; [reflexivity | ].
  destruct e; simpl; rewrite IH; reflexivity.
Qed.

Lemma batch_calls_app (a b : list Event) :
  batch_calls (a ++ b) = (batch_calls a + batch_calls b)%nat.
Proof.
  induction a as [ | e a IH]; [reflexivity | ].
  destruct e; simpl; rewrite IH; reflexivity.
Qed.

Lemma open_calls_app (a b : list Event) :
  open_calls (a ++ b) = (open_calls a + open_calls b)%nat.
Proof.
  induction a as [ | e a IH]; [reflexivity | ].
  destruct e; simpl; rewrite IH; reflexivity.
Qed.


(** ** The connection manager only leaves events of its own *)

Section Frames.
Context (W : World).



End Frames.

(** ** The packet reader *)

Section ReaderFacts.
Context (W : World) {M : GoMath}.

(** End-of-stream: the reader marks the link [NotConnected], reconnects
    before doing anything else, and goes back to the outer loop without
    sending a report. *)
Lemma readReports_EOF_reconnects (k fuel : nat) (t : Task)
    (pending : list DecodeResult) (h : Handle) :
  err (next_result pending) = Some io_EOF ->
  statusMu (dev t) = unlocked ->
  (forall i, (i < k)%nat ->
             serial_OpenPort W (opens t + i) (device_of t) (baud_of t) = None) ->
  serial_OpenPort W (opens t + k) (device_of t) (baud_of t) = Some h ->
  (k < fuel)%nat ->
  readReports_step W fuel (AtDecode (Some pending)) t
  = Ret AtNewDecoder
      {| dev := {| config := config (dev t); conn := Some h;
                   status := Connected; statusMu := unlocked |};
         opens := opens t + S k;
         trace := trace t
                  ++ [EvDecode (next_result pending);
                      EvLog (ErrorReadingFromDevice io_EOF);
                      EvSetStatus NotConnected]
                  ++ connect_events (device_of t) (baud_of t) k h |}.
Proof.
  intros Heof Hmu Hfail Hok Hfuel.
  destruct t as [[cfg c st mu] n tr]; simpl in Hmu; subst mu.
  unfold readReports_step, Decode.
  unfold bind at 1 2, emit, ret; simpl. rewrite Heof.
  unfold bind at 1 2 3 4, Println, Lock, Unlock, on_statusMu, set_status, emit; simpl.
  unfold bind at 1.
  rewrite (connect_when_NotConnected W k fuel _ h); try assumption; try reflexivity.
  unfold device_of, baud_of; simpl.
  repeat rewrite <- app_assoc. reflexivity.
Qed.

(** Any other outcome of [Decode], an error included, takes the reader
    to the send with the report built from whatever [Decode] left in the
    packet; the connection is not touched. *)
Lemma readReports_publishes (fuel : nat) (t : Task) (pending : list DecodeResult) :
  err (next_result pending) <> Some io_EOF ->
  readReports_step W fuel (AtDecode (Some pending)) t
  = Ret (AtSend (Some (tl pending))
           (generateWxReport (Unmarshal (stored (next_result pending)) WxPacket.zero)))
        {| dev := dev t; opens := opens t;
           trace := trace t ++ [EvDecode (next_result pending)] |}.
Proof.
  intros Hne.
  unfold readReports_step, Decode.
  unfold bind at 1 2, emit, ret; simpl.
  destruct (err (next_result pending)) as [[ | | | | msg] | ];
    try reflexivity. congruence.
Qed.

(** C1 at a decode error.  When [Decode] returns an error other than
    [io.EOF] (a syntax error, a type error, an unexpected end in the
    middle of a record, a read error of the port), the reader does not
    mark the link [NotConnected] and does not reconnect: it builds a
    report from the failed record, stands at the send with it, and then
    hands it to the channel. *)
Theorem readReports_decode_error_is_published (fuel : nat) (t : Task)
    (pending : list DecodeResult) (e : error) :
  err (next_result pending) = Some e ->
  e <> io_EOF ->
  let failed := Unmarshal (stored (next_result pending)) WxPacket.zero in
  let t1 := {| dev := dev t; opens := opens t;
               trace := trace t ++ [EvDecode (next_result pending)] |} in
  readReports_step W fuel (AtDecode (Some pending)) t
  = Ret (AtSend (Some (tl pending)) (generateWxReport failed)) t1
  /\ readReports_step W fuel (AtSend (Some (tl pending)) (generateWxReport failed)) t1
     = Ret (AtDecode (Some (tl pending)))
         {| dev := dev t; opens := opens t;
            trace := trace t ++ [EvDecode (next_result pending);
                                 EvSend (generateWxReport failed)] |}.
Proof.
  intros He Hne. cbv zeta. split.
  - apply readReports_publishes. rewrite He. congruence.
  - unfold readReports_step, send, bind, emit, ret; simpl.
    rewrite <- app_assoc. reflexivity.
Qed.


(** The read lock that a connect in state [Connected] leaves held makes
    the next end-of-stream block the reader for ever at [Lock]. *)
Lemma held_read_lock_blocks_reader (fuel fuel' : nat) (t t' : Task)
    (pending : list DecodeResult) :
  status (dev t) = Connected ->
  writerHeld (statusMu (dev t)) = false ->
  connectToSerialSi1000 W fuel t = Ret tt t' ->
  err (next_result pending) = Some io_EOF ->
  exists t'', readReports_step W fuel' (AtDecode (Some pending)) t' = Halt Blocked t''.
Proof.
  destruct t as [[c0 c st [r wh]] n tr]; simpl. intros -> -> Hrun Heof.
  injection Hrun as <-.
  unfold readReports_step, Decode.
  unfold bind at 1 2, emit, ret; simpl. rewrite Heof.
  eexists. reflexivity.
Qed.

End ReaderFacts.

(** ** The report writer *)

Section WriterFacts.
Context (W : World) (cfg : config.Config).

Lemma storeReport_effects (report : WxReport.t) (w : Writer) :
  taken (storeReport W cfg report w) = S (taken w)
  /\ receives (wtrace (storeReport W cfg report w)) = receives (wtrace w)
  /\ batch_calls (wtrace (storeReport W cfg report w)) = S (batch_calls (wtrace w)).
Proof.
  unfold storeReport.
  destruct (influx_NewBatchPoints W (taken w)) as [e | ]; simpl.
  - rewrite receives_app, batch_calls_app. simpl.
    rewrite app_nil_r. repeat split. lia.
  - match goal with
    | |- context [influx_Write W ?k ?bp] => destruct (influx_Write W k bp) as [e | ]
    end; simpl;
      repeat rewrite receives_app; repeat rewrite batch_calls_app; simpl;
      repeat rewrite app_nil_r; repeat split; lia.
Qed.

Lemma storeReports_app (rs1 rs2 : list WxReport.t) :
  forall w, storeReports W cfg (rs1 ++ rs2) w
            = storeReports W cfg rs2 (storeReports W cfg rs1 w).
Proof.
  induction rs1 as [ | r rs1 IH]; intros w; [reflexivity | ].
  simpl. apply IH.
Qed.

(** Every report fed to the writer is taken once and attempted once, in
    order, whatever the store answers. *)
Lemma storeReports_effects (rs : list WxReport.t) :
  forall w,
    taken (storeReports W cfg rs w) = (taken w + List.length rs)%nat
    /\ receives (wtrace (storeReports W cfg rs w)) = receives (wtrace w) ++ rs
    /\ batch_calls (wtrace (storeReports W cfg rs w))
       = (batch_calls (wtrace w) + List.length rs)%nat.
Proof.
  induction rs as [ | r rs IH]; intros w; simpl.
  - rewrite app_nil_r. repeat split; lia.
  - destruct (IH (storeReport W cfg r (receive r w))) as [Ht [Hr Hb]].
    destruct (storeReport_effects r (receive r w)) as [Ht1 [Hr1 Hb1]].
    rewrite Ht, Hr, Hb, Ht1, Hr1, Hb1. simpl.
    rewrite receives_app, batch_calls_app. simpl.
    rewrite <- app_assoc. simpl. repeat split; lia.
Qed.

(** A report whose store fails is logged and dropped. *)
Lemma storeReport_failure (report : WxReport.t) (w : Writer) (e : error) :
  store_failure W cfg (taken w) report = Some e ->
  storeReport W cfg report (receive report w)
  = {| taken := S (taken w);
       wtrace := wtrace w ++ dropped_events W cfg (taken w) report e;
       accepted := accepted w |}.
Proof.
  unfold store_failure, storeReport, dropped_events, receive, wemit; simpl.
  destruct (influx_NewBatchPoints W (taken w)) as [e' | ]; simpl.
  - intros [= ->]. rewrite <- app_assoc. reflexivity.
  - unfold batch_for, empty_batch. intros ->.
    repeat rewrite <- app_assoc. reflexivity.
Qed.

(** C6.  When building the batch or writing it fails for the report
    numbered K, the writer logs the error and drops the report: one
    attempt, no retry, nothing accepted by the store.  It then goes on
    with the reports that follow exactly as it would have from that
    state: every report of the sequence is taken and attempted once, in
    order. *)
Theorem storeReports_failure_does_not_stop
    (before : list WxReport.t) (report : WxReport.t) (rest : list WxReport.t)
    (w0 : Writer) (e : error) :
  let K := (taken w0 + List.length before)%nat in
  let wK := storeReports W cfg before w0 in
  let wK1 := storeReports W cfg (before ++ [report]) w0 in
  let final := storeReports W cfg (before ++ report :: rest) w0 in
  store_failure W cfg K report = Some e ->
  wtrace wK1 = wtrace wK ++ dropped_events W cfg K report e
  /\ accepted wK1 = accepted wK
  /\ batch_calls (wtrace wK1) = S (batch_calls (wtrace wK))
  /\ final = storeReports W cfg rest wK1
  /\ receives (wtrace final) = receives (wtrace w0) ++ before ++ report :: rest
  /\ batch_calls (wtrace final)
     = (batch_calls (wtrace w0) + List.length (before ++ report :: rest))%nat.
Proof.
  cbv zeta. intros Hfail.
  destruct (storeReports_effects before w0) as [Htaken _].
  assert (Hstep : storeReports W cfg (before ++ [report]) w0
                  = {| taken := S (taken (storeReports W cfg before w0));
                       wtrace := wtrace (storeReports W cfg before w0)
                                 ++ dropped_events W cfg
                                      (taken (storeReports W cfg before w0)) report e;
                       accepted := accepted (storeReports W cfg before w0) |}).
  { rewrite storeReports_app. simpl. apply storeReport_failure.
    rewrite Htaken. exact Hfail. }
  rewrite Hstep. simpl. rewrite Htaken.
  split; [reflexivity | split; [reflexivity | split]].
  - destruct (storeReport_effects report (receive report (storeReports W cfg before w0)))
      as [_ [_ Hb]].
    rewrite (storeReport_failure _ _ e) in Hb by (rewrite Htaken; exact Hfail).
    simpl in Hb. rewrite Htaken in Hb. rewrite Hb.
    unfold receive, wemit. simpl. rewrite batch_calls_app. simpl. lia.
  - split.
    + replace (before ++ report :: rest) with ((before ++ [report]) ++ rest)
        by (rewrite <- app_assoc; reflexivity).
      rewrite storeReports_app, Hstep, Htaken. reflexivity.
    + destruct (storeReports_effects (before ++ report :: rest) w0) as [_ [Hr Hb]].
      split; [exact Hr | exact Hb].
Qed.

End WriterFacts.

(** ** The two goroutines and the channel *)

Section SystemFacts.
Context (W : World) {M : GoMath} (cfg : config.Config).






Lemma reachable_steps (s s' : System) :
  reachable W cfg s -> clos_refl_trans_1n System (step W) s s' -> reachable W cfg s'.
Proof.
  intros Hreach Hsteps. induction Hsteps as [ | s s1 s2 Hstep _ IH]; [exact Hreach | ].
  apply IH. apply (reach_step W cfg s s1 Hreach Hstep).
Qed.

(** Nothing holds the pipeline up: records that decode without error
    can all be handed over, and the writer then has their reports, in
    order, after those it had before. *)
Lemma good_records_are_delivered (good : list DecodeResult) :
  Forall (fun r => err r = None) good ->
  forall (rest : list DecodeResult) (t : Task) (w : Writer),
  exists t' w',
    clos_refl_trans_1n System (step W)
      {| reader := t; reader_pc := AtDecode (Some (good ++ rest));
         writer := w; writer_pc := AtReceive |}
      {| reader := t'; reader_pc := AtDecode (Some rest);
         writer := w'; writer_pc := AtReceive |}
    /\ receives (wtrace w')
       = receives (wtrace w)
         ++ map (fun r => generateWxReport (Unmarshal (stored r) WxPacket.zero)) good.
Proof.
  induction 1 as [ | r good Hr Hgood IH]; intros rest t w.
  - exists t, w. split; [apply Relation_Operators.rt1n_refl | ]. simpl. rewrite app_nil_r. reflexivity.
  - set (report := generateWxReport (Unmarshal (stored r) WxPacket.zero)).
    set (t1 := {| dev := dev t; opens := opens t; trace := trace t ++ [EvDecode r] |}).
    set (t2 := {| dev := dev t; opens := opens t;
                  trace := (trace t ++ [EvDecode r]) ++ [EvSend report] |}).
    set (w2 := storeReport W (config (dev t2)) report (receive report w)).
    destruct (IH rest t2 w2) as [t' [w' [Hsteps Hrecv]]].
    exists t', w'. split.
    + eapply Relation_Operators.rt1n_trans.
      { apply step_decode with (fuel := 0%nat) (pc' := AtSend (Some (good ++ rest)) report)
                               (t' := t1).
        rewrite (readReports_publishes W 0 t ((r :: good) ++ rest))
          by (simpl; rewrite Hr; discriminate).
        reflexivity. }
      eapply Relation_Operators.rt1n_trans.
      { apply step_handoff with (fuel := 0%nat) (pc' := AtDecode (Some (good ++ rest)))
                                (t' := t2).
        reflexivity. }
      eapply Relation_Operators.rt1n_trans.
      { apply (step_store W t2 (AtDecode (Some (good ++ rest))) (receive report w) report). }
      exact Hsteps.
    + rewrite Hrecv. unfold w2.
      destruct (storeReport_effects W (config (dev t2)) report (receive report w))
        as [_ [Hr2 _]].
      rewrite Hr2. unfold receive, wemit. simpl.
      rewrite receives_app. simpl. rewrite <- app_assoc. reflexivity.
Qed.

End SystemFacts.

Lemma sample_state_3_reachable :
  reachable (M := knownMath) sample_world sample_config sample_state_3.
Proof.
  apply reach_step with (s := sample_state_2).
  - apply reach_step with (s := sample_state_1).
    + apply reach_step with (s := sample_state_0).
      * apply reach_start. apply main_connected with (fuel := 5%nat). reflexivity.
      * apply step_open_decoder with (fuel := 0%nat). reflexivity.
    + apply step_decode with (fuel := 0%nat). reflexivity.
  - apply step_handoff with (fuel := 0%nat). reflexivity.
Defined.


(** ** The program on the sample environment *)

Lemma readReports_decode_error_is_published_witness :
  err (next_result [broken_record]) = Some json_SyntaxError
  /\ readReports_step (M := knownMath) sample_world 0
       (AtDecode (Some [broken_record])) connected_sample
     = Ret (AtSend (Some []) zero_report)
         {| dev := dev connected_sample; opens := 3;
            trace := [EvDecode broken_record] |}.
Proof.
  split; [reflexivity | ].
  exact (proj1 (readReports_decode_error_is_published (M := knownMath)
                  sample_world 0 connected_sample [broken_record] json_SyntaxError
                  eq_refl ltac:(discriminate))).
Defined.

(** The whole of port 2's stream, read with a writer that is always
    ready: two records and a broken one give three reports, the middle
    one built from an empty packet, and the end of the stream gives one
    reconnect (the fourth call of [serial.OpenPort]), after which the
    reader is back at the outer loop with the link [Connected]. *)
Example readReports_sample_run :
  let r := readReports (M := knownMath) sample_world 5 8 AtNewDecoder sample_reader_0 in
  returned r = Some AtNewDecoder
  /\ sends (trace (task_of r)) = [sample_report_1; zero_report; sample_report_2]
  /\ packets (trace (task_of r))
     = [Unmarshal (stored sample_record_1) WxPacket.zero; WxPacket.zero;
        Unmarshal (stored sample_record_2) WxPacket.zero]
  /\ records (trace (task_of r))
     = [Unmarshal (stored sample_record_1) WxPacket.zero;
        Unmarshal (stored sample_record_2) WxPacket.zero]
  /\ open_calls (trace (task_of r)) = 4%nat
  /\ status (dev (task_of r)) = Connected
  /\ conn (dev (task_of r)) = Some 3%nat.
Proof. vm_compute. repeat split. Qed.

Example zero_report_dewpoint :
  WxReport.Dewpoint zero_report = (32.0)%f32
  /\ WxReport.Temperature zero_report = (0)%f32.
Proof. vm_compute. split; reflexivity. Qed.

Lemma storeReports_failure_does_not_stop_witness :
  store_failure sample_world sample_config 1 sample_report_2
  = Some (errorString "timeout")
  /\ receives (wtrace (storeReports sample_world sample_config
                         ([sample_report_1] ++ sample_report_2 :: [zero_report])
                         writer_start))
     = receives (wtrace writer_start)
       ++ [sample_report_1] ++ sample_report_2 :: [zero_report]
  /\ batch_calls (wtrace (storeReports sample_world sample_config
                            ([sample_report_1] ++ sample_report_2 :: [zero_report])
                            writer_start))
     = (batch_calls (wtrace writer_start)
        + List.length ([sample_report_1] ++ sample_report_2 :: [zero_report]))%nat.
Proof.
  split; [reflexivity | ].
  exact (proj2 (proj2 (proj2 (proj2
           (storeReports_failure_does_not_stop sample_world sample_config
              [sample_report_1] sample_report_2 [zero_report] writer_start
              (errorString "timeout") eq_refl))))).
Defined.

(** The store accepted the reports numbered 0 and 2 and not the one
    numbered 1. *)
Example storeReports_sample_run :
  map fst (accepted (storeReports sample_world sample_config
                       [sample_report_1; sample_report_2; zero_report] writer_start))
  = [0%nat; 2%nat].
Proof. vm_compute. reflexivity. Qed.

Lemma generateWxReport_rainfall_witness :
  Wire.rain_spoons (stored sample_record_1) = Some 3
  /\ WxReport.Rainfall
       (@generateWxReport knownMath (Unmarshal (stored sample_record_1) WxPacket.zero))
     = rainfall 3.
Proof.
  split; [reflexivity | ].
  exact (proj1 (proj2 (@generateWxReport_rainfall knownMath))
           (stored sample_record_1) 3 eq_refl).
Defined.

Example rainfall_3 : rainfall 3 = (0.3)%f32.
Proof. vm_compute. reflexivity. Qed.

Lemma generateWxReport_unconditional_witness :
  Wire.temperature_F no_temperature = None
  /\ WxReport.Dewpoint (@generateWxReport knownMath (Unmarshal no_temperature WxPacket.zero))
     = @dewpointFahrenheit knownMath (0)%f32
         (WxPacket.Humidity (Unmarshal no_temperature WxPacket.zero)).
Proof.
  split; [reflexivity | ].
  exact (proj1 (proj2 (proj2 (@generateWxReport_unconditional knownMath no_temperature)
                         eq_refl))).
Defined.

Example no_temperature_report :
  let r := @generateWxReport knownMath (Unmarshal no_temperature WxPacket.zero) in
  WxReport.Dewpoint r = (32.0)%f32
  /\ WxReport.HeatIndex r = (0)%f32
  /\ WxReport.WindChill r = @windchillFahrenheit knownMath (0)%f32 (5)%f32.
Proof. vm_compute. repeat split. Qed.

(** ** The link while the program runs *)

Section LinkFacts.
Context (W : World).

(** Among the next [fuel] calls of [serial.OpenPort] either one is the
    first to succeed or all fail. *)
Lemma first_success (f : nat -> option Handle) (fuel : nat) :
  (exists k h, (k < fuel)%nat /\ (forall i, (i < k)%nat -> f i = None) /\ f k = Some h)
  \/ (forall i, (i < fuel)%nat -> f i = None).
Proof.
  induction fuel as [ | fuel [[k [h [Hk [Hfail Hok]]]] | Hnone]].
  - right. intros i Hi. lia.
  - left. exists k, h. repeat split; [lia | exact Hfail | exact Hok].
  - destruct (f fuel) as [h | ] eqn:Hf.
    + left. exists fuel, h. repeat split; [lia | exact Hnone | exact Hf].
    + right. intros i Hi.
      destruct (Nat.eq_dec i fuel) as [-> | Hne]; [exact Hf | apply Hnone; lia].
Qed.

Lemma connectLoop_out_of_fuel (fuel : nat) :
  forall t : Task,
    (forall i, (i < fuel)%nat ->
               serial_OpenPort W (opens t + i) (device_of t) (baud_of t) = None) ->
    exists t', connectLoop W fuel t = Halt OutOfFuel t'.
Proof.
  induction fuel as [ | fuel IH]; intros t Hfail.
  - exists t. reflexivity.
  - destruct t as [[cfg c st mu] n tr].
    unfold device_of, baud_of in *; simpl in Hfail |- *.
    pose proof (Hfail O ltac:(lia)) as H0. rewrite Nat.add_0_r in H0.
    unfold bind at 1 2 3, get_config, OpenPort, set_conn; simpl. rewrite H0.
    unfold bind at 1 2, Println, Sleep, emit; simpl.
    apply IH. unfold device_of, baud_of; simpl. intros i Hi.
    rewrite <- (Hfail (S i) ltac:(lia)). f_equal. lia.
Qed.

(** A connect from [NotConnected] with the mutex free has two outcomes:
    it returns after some [k] failures and a success, or it is still
    trying.  It never blocks and never stops the program. *)
Lemma connect_outcomes (fuel : nat) (t : Task) :
  status (dev t) = NotConnected ->
  statusMu (dev t) = unlocked ->
  (exists k h,
      (forall i, (i < k)%nat ->
                 serial_OpenPort W (opens t + i) (device_of t) (baud_of t) = None)
      /\ serial_OpenPort W (opens t + k) (device_of t) (baud_of t) = Some h
      /\ connectToSerialSi1000 W fuel t
         = Ret tt {| dev := {| config := config (dev t); conn := Some h;
                               status := Connected; statusMu := unlocked |};
                     opens := opens t + S k;
                     trace := trace t ++ connect_events (device_of t) (baud_of t) k h |})
  \/ (exists t', connectToSerialSi1000 W fuel t = Halt OutOfFuel t').
Proof.
  intros Hst Hmu.
  destruct (first_success
              (fun i => serial_OpenPort W (opens t + i) (device_of t) (baud_of t)) fuel)
    as [[k [h [Hk [Hfail Hok]]]] | Hnone].
  - left. exists k, h. split; [exact Hfail | split; [exact Hok | ]].
    apply connect_when_NotConnected; assumption.
  - right.
    destruct t as [[cfg c st mu] n tr]; simpl in Hst, Hmu; subst st mu.
    unfold connectToSerialSi1000.
    unfold bind at 1 2 3 4 5 6 7 8, RLock, RUnlock, Lock, Unlock, on_statusMu,
      get_status, set_status, get_config, Println, emit; simpl.
    apply connectLoop_out_of_fuel. exact Hnone.
Qed.

End LinkFacts.

Section ReaderMoves.
Context (W : World) {M : GoMath}.

(** With the link up, a move of the reader either returns, leaving the
    link up, or is still inside the retry loop of the reconnect. *)
Lemma reader_move_keeps_link (fuel : nat) (pc : ReaderPc) (t : Task) :
  link_up t ->
  decoder_over_port pc ->
  match readReports_step W fuel pc t with
  | Ret pc' t' =>
      link_up t' /\ decoder_over_port pc'
      /\ config (dev t') = config (dev t)
      /\ exists evs,
          trace t' = trace t ++ evs
          /\ reader_move W (opens t) (device_of t) (baud_of t) evs
  | Halt why _ => why = OutOfFuel
  end.
Proof.
  intros [Hst [Hmu [h Hconn]]] Hdec.
  destruct t as [[cfg c st mu] n tr]; simpl in Hst, Hmu, Hconn; subst st mu c.
  destruct pc as [ | [pending | ] | [pending | ] report]; try contradiction.
  - unfold readReports_step, NewDecoder, bind, get_conn, ret; simpl.
    split; [repeat split; eexists; reflexivity | ].
    split; [exact I | split; [reflexivity | ]].
    exists []. rewrite app_nil_r. split; [reflexivity | apply move_silent].
  - destruct (option_map (fun e => match e with io_EOF => true | _ => false end)
                (err (next_result pending))) as [[ | ] | ] eqn:Hcase.
    + assert (Heof : err (next_result pending) = Some io_EOF)
        by (destruct (err (next_result pending)) as [[ | | | | msg] | ];
            simpl in Hcase; congruence).
      unfold readReports_step, Decode.
      unfold bind at 1 2, emit, ret; simpl. rewrite Heof.
      unfold bind at 1 2 3 4, Println, Lock, Unlock, on_statusMu, set_status, emit; simpl.
      unfold bind at 1.
      match goal with
      | |- match (match connectToSerialSi1000 W fuel ?t1 with _ => _ end) with _ => _ end =>
          destruct (connect_outcomes W fuel t1 eq_refl eq_refl)
            as [[k [h' [Hfail [Hok Hrun]]]] | [t' Hrun]]; rewrite Hrun
      end.
      * unfold ret. simpl.
        split; [repeat split; eexists; reflexivity | ].
        split; [exact I | split; [reflexivity | ]].
        eexists. split.
        { repeat rewrite <- app_assoc. simpl. reflexivity. }
        apply (move_reconnected W _ _ _ (next_result pending) k h' Heof Hfail Hok).
      * reflexivity.
    + assert (Hne : err (next_result pending) <> Some io_EOF)
        by (destruct (err (next_result pending)) as [[ | | | | msg] | ];
            simpl in Hcase; congruence).
      rewrite (readReports_publishes W fuel _ pending Hne). simpl.
      split; [repeat split; eexists; reflexivity | ].
      split; [exact I | split; [reflexivity | ]].
      eexists. split; [reflexivity | apply move_decoded, Hne].
    + assert (Hne : err (next_result pending) <> Some io_EOF)
        by (destruct (err (next_result pending)); simpl in Hcase; congruence).
      rewrite (readReports_publishes W fuel _ pending Hne). simpl.
      split; [repeat split; eexists; reflexivity | ].
      split; [exact I | split; [reflexivity | ]].
      eexists. split; [reflexivity | apply move_decoded, Hne].
  - unfold readReports_step, send, bind, emit, ret; simpl.
    split; [repeat split; eexists; reflexivity | ].
    split; [exact I | split; [reflexivity | ]].
    eexists. split; [reflexivity | apply move_sent].
Qed.

End ReaderMoves.

Lemma status_sets_app (st : ConnStatus) (a b : list Event) :
  status_sets st (a ++ b) = (status_sets st a + status_sets st b)%nat.
Proof.
  induction a as [ | e a IH]; [reflexivity | ].
  destruct e; simpl; try exact IH.
  destruct (same_status st s); simpl; rewrite IH; reflexivity.
Qed.

Lemma eof_decodes_app (a b : list Event) :
  eof_decodes (a ++ b) = (eof_decodes a + eof_decodes b)%nat.
Proof.
  induction a as [ | e a IH]; [reflexivity | ].
  destruct e; simpl; try exact IH.
  destruct (err r) as [[ | | | | msg] | ]; simpl; rewrite IH; reflexivity.
Qed.

(** A connect that succeeds sets [Connecting] once and [Connected] once,
    calls [serial.OpenPort] with the arguments it was given only, and
    decodes nothing. *)
Lemma failed_attempts_counts (name : string) (baud : Z) (cfg : config.Config) (k : nat) :
  name = config.Device (config.Si2000 cfg) ->
  baud = config.Baud (config.Si2000 cfg) ->
  Forall (opens_configured cfg) (failed_attempts name baud k)
  /\ (forall st, status_sets st (failed_attempts name baud k) = 0%nat)
  /\ eof_decodes (failed_attempts name baud k) = 0%nat
  /\ open_calls (failed_attempts name baud k) = k.
Proof.
  intros Hname Hbaud. induction k as [ | k [IHf [IHs [IHe IHo]]]].
  - repeat split. apply Forall_nil.
  - simpl. repeat split.
    + apply Forall_cons; [split; assumption | ].
      apply Forall_cons; [exact I | ]. apply Forall_cons; [exact I | exact IHf].
    + exact IHs.
    + exact IHe.
    + rewrite IHo. reflexivity.
Qed.

Lemma connect_events_counts (name : string) (baud : Z) (cfg : config.Config)
    (k : nat) (h : Handle) :
  name = config.Device (config.Si2000 cfg) ->
  baud = config.Baud (config.Si2000 cfg) ->
  Forall (opens_configured cfg) (connect_events name baud k h)
  /\ status_sets NotConnected (connect_events name baud k h) = 0%nat
  /\ status_sets Connecting (connect_events name baud k h) = 1%nat
  /\ status_sets Connected (connect_events name baud k h) = 1%nat
  /\ eof_decodes (connect_events name baud k h) = 0%nat
  /\ open_calls (connect_events name baud k h) = S k.
Proof.
  intros Hname Hbaud.
  destruct (failed_attempts_counts name baud cfg k Hname Hbaud) as [Hf [Hs [He Ho]]].
  unfold connect_events.
  repeat split.
  - apply Forall_cons; [exact I | ]. apply Forall_cons; [exact I | ].
    apply Forall_app. split; [exact Hf | ].
    apply Forall_cons; [split; assumption | ].
    apply Forall_cons; [exact I | ]. apply Forall_cons; [exact I | apply Forall_nil].
  - simpl. rewrite status_sets_app, Hs. reflexivity.
  - simpl. rewrite status_sets_app, Hs. reflexivity.
  - simpl. rewrite status_sets_app, Hs. reflexivity.
  - simpl. rewrite eof_decodes_app, He. reflexivity.
  - simpl. rewrite open_calls_app, Ho. simpl. lia.
Qed.

Lemma reader_move_counts (W : World) (cfg : config.Config) (n : nat) (evs : list Event) :
  reader_move W n (config.Device (config.Si2000 cfg)) (config.Baud (config.Si2000 cfg)) evs ->
  Forall (opens_configured cfg) evs
  /\ status_sets NotConnected evs = eof_decodes evs
  /\ status_sets Connecting evs = eof_decodes evs
  /\ status_sets Connected evs = eof_decodes evs.
Proof.
  intros [ | r Hne | report | r k h Heof Hfail Hok].
  - repeat split. apply Forall_nil.
  - simpl. destruct (err r) as [[ | | | | msg] | ] eqn:Herr;
      try (repeat split; apply Forall_cons; [exact I | apply Forall_nil]).
    exfalso. apply Hne. reflexivity.
  - repeat split. apply Forall_cons; [exact I | apply Forall_nil].
  - destruct (connect_events_counts _ _ cfg k h eq_refl eq_refl)
      as [Hf [Hn [Hing [Hed [He _]]]]].
    repeat split.
    + apply Forall_app. split; [ | exact Hf].
      repeat (apply Forall_cons; [exact I | ]). apply Forall_nil.
    + rewrite status_sets_app, eof_decodes_app, Hn, He. simpl. rewrite Heof. reflexivity.
    + rewrite status_sets_app, eof_decodes_app, Hing, He. simpl. rewrite Heof. reflexivity.
    + rewrite status_sets_app, eof_decodes_app, Hed, He. simpl. rewrite Heof. reflexivity.
Qed.

Section LinkInvariant.
Context (W : World) {M : GoMath} (cfg : config.Config).

(** Everything that holds of the reader in every state the program can
    reach. *)
Lemma reader_invariant (s : System) :
  reachable W cfg s ->
  link_up (reader s)
  /\ decoder_over_port (reader_pc s)
  /\ config (dev (reader s)) = cfg
  /\ Forall (opens_configured cfg) (trace (reader s))
  /\ status_sets NotConnected (trace (reader s)) = eof_decodes (trace (reader s))
  /\ status_sets Connecting (trace (reader s)) = S (eof_decodes (trace (reader s)))
  /\ status_sets Connected (trace (reader s)) = S (eof_decodes (trace (reader s))).
Proof.
  assert (Hmove : forall fuel pc t pc' t',
             link_up t -> decoder_over_port pc -> config (dev t) = cfg ->
             Forall (opens_configured cfg) (trace t) ->
             status_sets NotConnected (trace t) = eof_decodes (trace t) ->
             status_sets Connecting (trace t) = S (eof_decodes (trace t)) ->
             status_sets Connected (trace t) = S (eof_decodes (trace t)) ->
             readReports_step W fuel pc t = Ret pc' t' ->
             link_up t' /\ decoder_over_port pc' /\ config (dev t') = cfg
             /\ Forall (opens_configured cfg) (trace t')
             /\ status_sets NotConnected (trace t') = eof_decodes (trace t')
             /\ status_sets Connecting (trace t') = S (eof_decodes (trace t'))
             /\ status_sets Connected (trace t') = S (eof_decodes (trace t'))).
  { intros fuel pc t pc' t' Hlink Hdec Hcfg Hf Hn Hing Hed Hrun.
    pose proof (reader_move_keeps_link W fuel pc t Hlink Hdec) as Hstep.
    rewrite Hrun in Hstep.
    destruct Hstep as [Hlink' [Hdec' [Hcfg' [evs [Htr Hmv]]]]].
    unfold device_of, baud_of in Hmv. rewrite Hcfg in Hmv.
    destruct (reader_move_counts W cfg _ evs Hmv) as [Hf' [Hn' [Hing' Hed']]].
    rewrite Htr, !status_sets_app, !eof_decodes_app, Hn, Hing, Hed, Hn', Hing', Hed'.
    split; [exact Hlink' | split; [exact Hdec' | split; [congruence | ]]].
    split; [apply Forall_app; split; assumption | ].
    repeat split; lia. }
  induction 1 as [s Hstart | s s' Hreach IH Hstep].
  - destruct Hstart as [fuel t Hconn].
    destruct (connect_outcomes W fuel (start cfg) eq_refl eq_refl)
      as [[k [h [_ [_ Hrun]]]] | [t' Hrun]]; rewrite Hrun in Hconn; [ | discriminate].
    injection Hconn as <-.
    destruct (connect_events_counts (device_of (start cfg)) (baud_of (start cfg))
                cfg k h eq_refl eq_refl) as [Hf [Hn [Hing [Hed [He _]]]]].
    cbn [reader reader_pc trace dev config start app].
    rewrite Hn, Hing, Hed, He.
    split; [repeat split; eexists; reflexivity | ].
    repeat split; assumption.
  - destruct IH as [Hlink [Hdec [Hcfg [Hf [Hn [Hing Hed]]]]]].
    destruct Hstep as [t w wpc fuel pc' t' Hrun | t dec w wpc fuel pc' t' Hrun
                      | t dec report w fuel pc' t' Hrun | t pc w report];
      simpl in Hlink, Hdec, Hcfg, Hf, Hn, Hing, Hed |- *.
    + apply (Hmove fuel AtNewDecoder t pc' t'); assumption.
    + apply (Hmove fuel (AtDecode dec) t pc' t'); assumption.
    + apply (Hmove fuel (AtSend dec report) t pc' t'); assumption.
    + split; [exact Hlink | ]. repeat split; assumption.
Qed.

(** While the program runs the link is up between any two moves of the
    reader: the status is [Connected], a port is stored, the mutex is
    free, the configuration is the one [main] loaded, and the decoder the
    reader works with is over a port, never over nil. *)
Theorem link_stays_up (s : System) :
  reachable W cfg s ->
  status (dev (reader s)) = Connected
  /\ statusMu (dev (reader s)) = unlocked
  /\ (exists h, conn (dev (reader s)) = Some h)
  /\ config (dev (reader s)) = cfg
  /\ decoder_over_port (reader_pc s).
Proof.
  intros Hreach.
  destruct (reader_invariant s Hreach) as [[Hst [Hmu Hconn]] [Hdec [Hcfg _]]].
  repeat split; assumption.
Qed.

(** In a state the program can reach, the next move of the reader never
    blocks on the mutex and never stops the program with a fatal error:
    it returns, or it is in the retry loop of a reconnect. *)
Theorem reader_never_blocks_or_panics (s : System) (fuel : nat) :
  reachable W cfg s ->
  match readReports_step W fuel (reader_pc s) (reader s) with
  | Ret _ _ => True
  | Halt why _ => why = OutOfFuel
  end.
Proof.
  intros Hreach.
  destruct (reader_invariant s Hreach) as [Hlink [Hdec _]].
  pose proof (reader_move_keeps_link W fuel (reader_pc s) (reader s) Hlink Hdec) as Hstep.
  destruct (readReports_step W fuel (reader_pc s) (reader s)); [exact I | exact Hstep].
Qed.

(** Every call of [serial.OpenPort] the program makes, at start and at
    every reconnect, names the device and the baud rate of the
    configuration [main] loaded. *)
Theorem only_the_configured_port_is_opened (s : System) :
  reachable W cfg s ->
  forall name baud r,
    In (EvOpenPort name baud r) (trace (reader s)) ->
    name = config.Device (config.Si2000 cfg)
    /\ baud = config.Baud (config.Si2000 cfg).
Proof.
  intros Hreach name baud r Hin.
  destruct (reader_invariant s Hreach) as [_ [_ [_ [Hf _]]]].
  rewrite Forall_forall in Hf. apply (Hf _ Hin).
Qed.

(** Reconnects and ends of stream match one for one: besides the connect
    of [main], the status is set to [NotConnected], to [Connecting] and to
    [Connected] exactly once for each [Decode] that returned [io.EOF],
    and never for another reason. *)
Theorem one_reconnect_per_end_of_stream (s : System) :
  reachable W cfg s ->
  status_sets NotConnected (trace (reader s)) = eof_decodes (trace (reader s))
  /\ status_sets Connecting (trace (reader s)) = S (eof_decodes (trace (reader s)))
  /\ status_sets Connected (trace (reader s)) = S (eof_decodes (trace (reader s))).
Proof.
  intros Hreach.
  destruct (reader_invariant s Hreach) as [_ [_ [_ [_ Hcounts]]]].
  exact Hcounts.
Qed.

End LinkInvariant.

(** ** More of the program on the sample environment *)

Lemma readReports_EOF_reconnects_witness :
  readReports_step (M := knownMath) sample_world 1 (AtDecode (Some [])) connected_sample
  = Ret AtNewDecoder
      {| dev := {| config := sample_config; conn := Some 3%nat;
                   status := Connected; statusMu := unlocked |};
         opens := 4;
         trace := [EvDecode at_EOF; EvLog (ErrorReadingFromDevice io_EOF);
                   EvSetStatus NotConnected]
                  ++ connect_events "/dev/ttyUSB0" 57600 0 3%nat |}.
Proof.
  assert (Hfail : forall i, (i < 0)%nat ->
            serial_OpenPort sample_world (opens connected_sample + i)
              (device_of connected_sample) (baud_of connected_sample) = None)
    by (intros i Hi; lia).
  exact (readReports_EOF_reconnects (M := knownMath) sample_world 0 1 connected_sample
           [] 3%nat eq_refl eq_refl Hfail eq_refl ltac:(lia)).
Defined.

Lemma held_read_lock_blocks_reader_witness :
  connectToSerialSi1000 sample_world 0 connected_sample = Ret tt read_locked_sample
  /\ exists t'',
      readReports_step (M := knownMath) sample_world 1 (AtDecode (Some []))
        read_locked_sample
      = Halt Blocked t''.
Proof.
  split; [reflexivity | ].
  exact (held_read_lock_blocks_reader (M := knownMath) sample_world 0 1
           connected_sample read_locked_sample [] eq_refl eq_refl eq_refl eq_refl).
Defined.

Lemma good_records_are_delivered_witness :
  exists t' w',
    clos_refl_trans_1n System (step (M := knownMath) sample_world)
      {| reader := sample_reader_0;
         reader_pc := AtDecode (Some ([sample_record_1; sample_record_2] ++ []));
         writer := writer_start; writer_pc := AtReceive |}
      {| reader := t'; reader_pc := AtDecode (Some []);
         writer := w'; writer_pc := AtReceive |}
    /\ receives (wtrace w')
       = receives (wtrace writer_start)
         ++ map (fun r => @generateWxReport knownMath (Unmarshal (stored r) WxPacket.zero))
              [sample_record_1; sample_record_2].
Proof.
  apply (good_records_are_delivered (M := knownMath) sample_world
           [sample_record_1; sample_record_2]).
  repeat constructor.
Defined.

Lemma quiet_state_reachable :
  reachable (M := knownMath) quiet_world sample_config quiet_state.
Proof.
  apply reach_step with (s := quiet_state_1).
  - apply reach_step with (s := quiet_state_0).
    + apply reach_start. apply main_connected with (fuel := 1%nat). reflexivity.
    + apply step_open_decoder with (fuel := 0%nat). reflexivity.
  - apply step_decode with (fuel := 1%nat). reflexivity.
Defined.

Lemma link_stays_up_witness :
  status (dev (reader sample_state_3)) = Connected
  /\ statusMu (dev (reader sample_state_3)) = unlocked
  /\ (exists h, conn (dev (reader sample_state_3)) = Some h)
  /\ config (dev (reader sample_state_3)) = sample_config
  /\ decoder_over_port (reader_pc sample_state_3).
Proof.
  exact (link_stays_up (M := knownMath) sample_world sample_config sample_state_3
           sample_state_3_reachable).
Defined.

Lemma reader_never_blocks_or_panics_witness :
  match readReports_step (M := knownMath) sample_world 0
          (reader_pc sample_state_3) (reader sample_state_3) with
  | Ret _ _ => True
  | Halt why _ => why = OutOfFuel
  end.
Proof.
  exact (reader_never_blocks_or_panics (M := knownMath) sample_world sample_config
           sample_state_3 0 sample_state_3_reachable).
Defined.

Lemma only_the_configured_port_is_opened_witness :
  In (EvOpenPort "/dev/ttyUSB0" 57600 None) (trace (reader sample_state_3))
  /\ "/dev/ttyUSB0"%string = config.Device (config.Si2000 sample_config)
  /\ 57600 = config.Baud (config.Si2000 sample_config).
Proof.
  assert (Hin : In (EvOpenPort "/dev/ttyUSB0" 57600 None) (trace (reader sample_state_3)))
    by (simpl; auto).
  split; [exact Hin | ].
  exact (only_the_configured_port_is_opened (M := knownMath) sample_world sample_config
           sample_state_3 sample_state_3_reachable _ _ _ Hin).
Defined.

Lemma one_reconnect_per_end_of_stream_witness :
  eof_decodes (trace (reader quiet_state)) = 1%nat
  /\ status_sets NotConnected (trace (reader quiet_state)) = 1%nat
  /\ status_sets Connecting (trace (reader quiet_state)) = 2%nat
  /\ status_sets Connected (trace (reader quiet_state)) = 2%nat.
Proof.
  split; [reflexivity | ].
  exact (one_reconnect_per_end_of_stream (M := knownMath) quiet_world sample_config
           quiet_state quiet_state_reachable).
Defined.

(** ** What the store holds *)

Section StoredFacts.
Context (W : World) (cfg : config.Config).

Lemma storeReport_accepted (report : WxReport.t) (w : Writer) :
  accepted (storeReport W cfg report (receive report w))
  = accepted w ++ match store_failure W cfg (taken w) report with
                  | None => [(taken w, batch_for W cfg (taken w) report)]
                  | Some _ => []
                  end.
Proof.
  unfold store_failure, storeReport, receive, wemit, batch_for, empty_batch; simpl.
  destruct (influx_NewBatchPoints W (taken w)) as [e | ]; simpl.
  - rewrite app_nil_r. reflexivity.
  - match goal with
    | |- context [influx_Write W ?k ?bp] => destruct (influx_Write W k bp) as [e | ]
    end; simpl; [rewrite app_nil_r | ]; reflexivity.
Qed.

Lemma storeReports_accepted_from (reports : list WxReport.t) :
  forall w : Writer,
    accepted (storeReports W cfg reports w)
    = accepted w ++ stored_batches W cfg (taken w) reports.
Proof.
  induction reports as [ | report rest IH]; intros w.
  - simpl. rewrite app_nil_r. reflexivity.
  - simpl storeReports. rewrite IH, storeReport_accepted.
    destruct (storeReport_effects W cfg report (receive report w)) as [Htaken _].
    rewrite Htaken. simpl. rewrite <- app_assoc. reflexivity.
Qed.

(** After any run of the writer the store holds, in order, the batch of
    every report for which neither [influx.NewBatchPoints] nor [Write]
    returned an error, and nothing else: no report is stored twice, none
    that failed is stored later, and none that succeeded is missing.  A
    run that continues an earlier one adds to what the store held. *)
Theorem storeReports_accepted (reports more : list WxReport.t) :
  accepted (storeReports W cfg reports writer_start) = stored_batches W cfg 0 reports
  /\ accepted (storeReports W cfg (reports ++ more) writer_start)
     = stored_batches W cfg 0 reports
       ++ stored_batches W cfg (List.length reports) more.
Proof.
  split.
  - apply (storeReports_accepted_from reports writer_start).
  - rewrite storeReports_app, storeReports_accepted_from.
    rewrite (storeReports_accepted_from reports writer_start).
    destruct (storeReports_effects W cfg reports writer_start) as [Htaken _].
    rewrite Htaken. reflexivity.
Qed.

Lemma stored_batches_shape (reports : list WxReport.t) :
  forall (k0 k : nat) (bp : BatchPoints),
    In (k, bp) (stored_batches W cfg k0 reports) ->
    (k0 <= k < k0 + List.length reports)%nat
    /\ exists report,
        nth_error reports (k - k0) = Some report
        /\ store_failure W cfg k report = None
        /\ bp = batch_for W cfg k report.
Proof.
  induction reports as [ | report rest IH]; intros k0 k bp Hin; [contradiction | ].
  simpl in Hin. apply in_app_or in Hin. destruct Hin as [Hin | Hin].
  - destruct (store_failure W cfg k0 report) eqn:Hfail; [contradiction | ].
    destruct Hin as [[= <- <-] | []].
    split; [simpl; lia | ].
    exists report. rewrite Nat.sub_diag. repeat split. exact Hfail.
  - apply IH in Hin. destruct Hin as [Hk [r [Hnth [Hfail Hbp]]]].
    split; [simpl; lia | ].
    exists r. replace (k - k0)%nat with (S (k - S k0)) by lia.
    repeat split; assumption.
Qed.

(** Every batch the store accepted from the writer holds exactly one
    point, named [wxreport], with one tag and ten fields, stamped with
    the time of its write; it names the configured database and the
    precision [s]; and it is the batch of the report with its number,
    whose store did not fail. *)
Theorem accepted_batches_hold_one_point (reports : list WxReport.t)
    (k : nat) (bp : BatchPoints) :
  In (k, bp) (accepted (storeReports W cfg reports writer_start)) ->
  exists report pt,
    nth_error reports k = Some report
    /\ store_failure W cfg k report = None
    /\ Database bp = config.InfluxDBName (config.InfluxDB cfg)
    /\ Precision bp = "s"%string
    /\ points bp = [pt]
    /\ pt_name pt = "wxreport"%string
    /\ pt_tags pt = report_tags report
    /\ List.length (pt_tags pt) = 1%nat
    /\ pt_fields pt = report_fields report
    /\ List.length (pt_fields pt) = 10%nat
    /\ pt_time pt = time_Now W k.
Proof.
  intros Hin.
  pose proof (storeReports_accepted_from reports writer_start) as Heq.
  simpl in Heq.
  rewrite Heq in Hin. apply stored_batches_shape in Hin.
  destruct Hin as [_ [report [Hnth [Hfail ->]]]].
  rewrite Nat.sub_0_r in Hnth.
  exists report, (NewPoint "wxreport" (report_tags report) (report_fields report)
                    (time_Now W k)).
  repeat split; assumption.
Qed.

End StoredFacts.

(** The theorem has no hypothesis; on the sample run the store holds the
    reports numbered 0 and 2. *)
Example stored_batches_sample :
  map fst (stored_batches sample_world sample_config 0
             [sample_report_1; sample_report_2; zero_report])
  = [0%nat; 2%nat].
Proof. reflexivity. Qed.

Lemma accepted_batches_hold_one_point_witness :
  In (2%nat, batch_for sample_world sample_config 2 zero_report)
     (accepted (storeReports sample_world sample_config
                  [sample_report_1; sample_report_2; zero_report] writer_start))
  /\ exists report pt,
      nth_error [sample_report_1; sample_report_2; zero_report] 2 = Some report
      /\ store_failure sample_world sample_config 2 report = None
      /\ Database (batch_for sample_world sample_config 2 zero_report)
         = config.InfluxDBName (config.InfluxDB sample_config)
      /\ Precision (batch_for sample_world sample_config 2 zero_report) = "s"%string
      /\ points (batch_for sample_world sample_config 2 zero_report) = [pt]
      /\ pt_name pt = "wxreport"%string
      /\ pt_tags pt = report_tags report
      /\ List.length (pt_tags pt) = 1%nat
      /\ pt_fields pt = report_fields report
      /\ List.length (pt_fields pt) = 10%nat
      /\ pt_time pt = time_Now sample_world 2.
Proof.
  assert (Hin : In (2%nat, batch_for sample_world sample_config 2 zero_report)
                   (accepted (storeReports sample_world sample_config
                                [sample_report_1; sample_report_2; zero_report]
                                writer_start)))
    by (right; left; reflexivity).
  split; [exact Hin | ].
  exact (accepted_batches_hold_one_point sample_world sample_config _ _ _ Hin).
Defined.

(** ** The tag of a stored point *)

Lemma Zseq_In (lo n : Z) (len : nat) :
  lo <= n < lo + Z.of_nat len -> In n (Zseq lo len).
Proof.
  intros Hn. unfold Zseq. apply in_map_iff.
  exists (Z.to_nat (n - lo)). split; [lia | apply in_seq; lia].
Qed.

(** The tag [transmitter-id] of a point is [string(report.TransmitterID)]:
    the character with that code point in UTF-8, one byte below 128 and
    two from 128 on.  For no transmitter identifier is it the identifier
    written in decimal digits. *)
Theorem transmitter_tag_is_a_code_point (report : WxReport.t) :
  0 <= WxReport.TransmitterID report < 256 ->
  exists tag,
    report_tags report = [("transmitter-id"%string, tag)]
    /\ tag <> decimal (WxReport.TransmitterID report)
    /\ String.length tag = (if WxReport.TransmitterID report <? 128 then 1%nat else 2%nat).
Proof.
  intros Hid.
  exists (string_of_uint8 (WxReport.TransmitterID report)).
  split; [reflexivity | ].
  assert (Hall : forallb (fun n =>
                    negb (String.eqb (string_of_uint8 n) (decimal n))
                    && Nat.eqb (String.length (string_of_uint8 n))
                         (if n <? 128 then 1%nat else 2%nat))
                   (Zseq 0 256) = true)
    by (vm_compute; reflexivity).
  rewrite forallb_forall in Hall.
  assert (Hin : In (WxReport.TransmitterID report) (Zseq 0 256))
    by (apply Zseq_In; simpl; lia).
  specialize (Hall (WxReport.TransmitterID report) Hin).
  apply andb_prop in Hall. destruct Hall as [Hne Hlen].
  split.
  - intros Heq. rewrite Heq, String.eqb_refl in Hne. discriminate.
  - apply Nat.eqb_eq. exact Hlen.
Qed.

Lemma transmitter_tag_is_a_code_point_witness :
  0 <= WxReport.TransmitterID sample_report_1 < 256
  /\ decimal (WxReport.TransmitterID sample_report_1) = "1"%string
  /\ exists tag,
      report_tags sample_report_1 = [("transmitter-id"%string, tag)]
      /\ tag <> decimal (WxReport.TransmitterID sample_report_1)
      /\ String.length tag
         = (if WxReport.TransmitterID sample_report_1 <? 128 then 1%nat else 2%nat).
Proof.
  assert (Hid : 0 <= WxReport.TransmitterID sample_report_1 < 256) by (simpl; lia).
  split; [exact Hid | split; [reflexivity | ]].
  exact (transmitter_tag_is_a_code_point sample_report_1 Hid).
Defined.

(** ** More of the metric calculator *)

Lemma spec_float_eqb_eq (x y : spec_float) : spec_float_eqb x y = true -> x = y.
Proof.
  destruct x as [a | a | | a m e], y as [b | b | | b m' e']; simpl; try discriminate;
    try reflexivity.
  - intros H. apply Bool.eqb_prop in H. congruence.
  - intros H. apply Bool.eqb_prop in H. congruence.
  - intros H. apply andb_prop in H. destruct H as [H He].
    apply andb_prop in H. destruct H as [Ha Hm].
    apply Bool.eqb_prop in Ha. apply Pos.eqb_eq in Hm. apply Z.eqb_eq in He.
    congruence.
Qed.

(** For every whole number of degrees Fahrenheit from -150 to 249,
    converting to Celsius and back gives the temperature again, exactly,
    although the Celsius value in between is rounded. *)
Theorem fahrenheit_round_trip (n : Z) :
  -150 <= n < 250 ->
  cToF (fToC (F32.of_Z n)) = F32.of_Z n.
Proof.
  intros Hn.
  assert (Hall : forallb (fun n => spec_float_eqb (cToF (fToC (F32.of_Z n))) (F32.of_Z n))
                   (Zseq (-150) 400) = true)
    by (vm_compute; reflexivity).
  rewrite forallb_forall in Hall.
  apply spec_float_eqb_eq, Hall, Zseq_In. simpl. lia.
Qed.

Lemma fahrenheit_round_trip_witness :
  cToF (fToC (F32.of_Z 68)) = F32.of_Z 68 /\ fToC (F32.of_Z 68) = F32.of_Z 20.
Proof.
  split; [ | vm_compute; reflexivity].
  exact (fahrenheit_round_trip 68 ltac:(lia)).
Defined.

(** The other way round the conversions do not always give the value
    back: 1 degree Celsius comes back changed. *)
Example celsius_round_trip_fails :
  fToC (cToF (F32.of_Z 1)) <> F32.of_Z 1.
Proof. vm_compute. discriminate. Qed.

Section DewpointFacts.
Context {M : GoMath}.
Local Open Scope f32_scope.

Lemma not_below_zero_not_minus_237_7 (t : float32) :
  (t <? 0) = false -> (t =? -237.7) = false.
Proof.
  intros Hpos. destruct (t =? -237.7) eqn:Hguard; [ | reflexivity].
  apply minus_237_7_below_zero in Hguard. congruence.
Qed.

(** Whatever [x] is, [x] plus minus infinity run through the rest of
    [dewpointCelcius] gives [NaN]. *)
Lemma dewpoint_tail_of_minus_infinity (x : float32) :
  let γ := x + S754_infinity true in
  (γ =? 17.27) = false /\ 237.7 * γ / (17.27 - γ) = NaN.
Proof.
  destruct x as [s | [ | ] | | s m e]; cbv zeta; split; vm_compute; reflexivity.
Qed.

(** When [math.Log] returns minus infinity, as it does for a relative
    humidity of 0, and the temperature is not below 0 degrees Celsius,
    the dewpoint is [NaN]: none of the guards of [dewpointCelcius] catches
    this input. *)
Theorem dewpoint_of_zero_humidity_is_NaN (t rh : float32) :
  (fToC t <? 0) = false ->
  float32_of_float64 (math_Log (float64_of_float32 (rh / 100.0))) = S754_infinity true ->
  dewpointCelcius (fToC t) rh = NaN /\ dewpointFahrenheit t rh = NaN.
Proof.
  intros Hpos Hlog.
  assert (Hc : dewpointCelcius (fToC t) rh = NaN).
  { unfold dewpointCelcius.
    rewrite Hpos, (not_below_zero_not_minus_237_7 _ Hpos). cbv zeta. rewrite Hlog.
    destruct (dewpoint_tail_of_minus_infinity (17.27 * fToC t / (237.7 + fToC t)))
      as [Hguard Hnan].
    rewrite Hguard. exact Hnan. }
  split; [exact Hc | ].
  unfold dewpointFahrenheit. rewrite Hc. vm_compute. reflexivity.
Qed.

End DewpointFacts.

Section DewpointExamples.
Local Open Scope f32_scope.

Lemma dewpoint_of_zero_humidity_is_NaN_witness :
  (fToC 68 <? 0) = false
  /\ float32_of_float64 (@math_Log documentedMath (float64_of_float32 (0 / 100.0)))
     = S754_infinity true
  /\ @dewpointCelcius documentedMath (fToC 68) 0 = NaN
  /\ @dewpointFahrenheit documentedMath 68 0 = NaN.
Proof.
  assert (Hpos : (fToC 68 <? 0) = false) by (vm_compute; reflexivity).
  assert (Hlog : float32_of_float64
                   (@math_Log documentedMath (float64_of_float32 (0 / 100.0)))
                 = S754_infinity true) by (vm_compute; reflexivity).
  split; [exact Hpos | split; [exact Hlog | ]].
  exact (@dewpoint_of_zero_humidity_is_NaN documentedMath 68 0 Hpos Hlog).
Defined.

End DewpointExamples.

(** ** Records without measurements *)

Section StatusRecords.
Context (W : World) {M : GoMath}.

Lemma generateWxReport_zero : generateWxReport WxPacket.zero = empty_report.
Proof.
  unfold generateWxReport, empty_report. cbv zeta.
  rewrite (dewpointFahrenheit_below_zero (WxPacket.Temperature WxPacket.zero))
    by (vm_compute; reflexivity).
  rewrite (windchill_unchanged (WxPacket.Temperature WxPacket.zero))
    by (right; vm_compute; reflexivity).
  reflexivity.
Qed.

(** A record that decodes without error and carries no measurement, such
    as a status message of the receiver, is not skipped: the reader builds
    the report of the zero packet from it, every field 0 and the dewpoint
    32 degrees, and stands at the send with it.  The [ready] flag and the
    [status] text are not looked at. *)
Theorem record_without_measurements_is_published (fuel : nat) (t : Task)
    (r : DecodeResult) (rest : list DecodeResult) :
  err r = None ->
  carries_no_measurement (stored r) ->
  readReports_step W fuel (AtDecode (Some (r :: rest))) t
  = Ret (AtSend (Some rest) empty_report)
        {| dev := dev t; opens := opens t; trace := trace t ++ [EvDecode r] |}.
Proof.
  intros Herr [Hid [Hws [Hwd [Htemp [Hhum [Huv [Hsol Hrain]]]]]]].
  rewrite (readReports_publishes W fuel t (r :: rest))
    by (simpl; rewrite Herr; discriminate).
  simpl next_result. simpl tl.
  replace (generateWxReport (Unmarshal (stored r) WxPacket.zero)) with empty_report;
    [reflexivity | ].
  rewrite <- generateWxReport_zero.
  unfold generateWxReport, Unmarshal. cbv zeta. simpl.
  rewrite Hid, Hws, Hwd, Htemp, Hhum, Huv, Hsol, Hrain. reflexivity.
Qed.

End StatusRecords.

Lemma record_without_measurements_is_published_witness :
  err status_message = None
  /\ carries_no_measurement (stored status_message)
  /\ readReports_step (M := knownMath) sample_world 0
       (AtDecode (Some [status_message])) connected_sample
     = Ret (AtSend (Some []) empty_report)
         {| dev := dev connected_sample; opens := opens connected_sample;
            trace := trace connected_sample ++ [EvDecode status_message] |}.
Proof.
  assert (Hnone : carries_no_measurement (stored status_message))
    by (repeat split).
  split; [reflexivity | split; [exact Hnone | ]].
  exact (record_without_measurements_is_published (M := knownMath) sample_world 0
           connected_sample status_message [] eq_refl Hnone).
Defined.

(** ** The start of main *)

Section MainFacts.
Context (H : Host) (W : World).



End MainFacts.

(** On the sample host [main] connects at its third attempt; on a host
    without the file it ends at once. *)
Example main_on_sample_host :
  main sample_host sample_world 5 = Connects (Ret tt sample_reader_0)
  /\ main bare_host sample_world 5 = Exits (errorString "no such file or directory").
Proof. split; reflexivity. Qed.
